(** * validate_rooted_hypershell.py: a shallow embedding

    The script inspects a directory tree for a fixed set of artifacts and
    reports, component by component, whether the expected files and the
    expected function, class and module names are present.  It prints a
    report on standard output and exits with status 0 or 1.

    The embedding keeps the shape of the script:
    - the inspected tree is a read-only map from relative paths to nodes;
    - Python exceptions are values of [exn], and a computation that prints
      and may raise lives in the monad [M];
    - [re.search] is modelled by a parser and a derivative matcher for a
      fragment of the pattern syntax, the rest of the syntax being left to a
      parameter of the development. *)

From Stdlib Require Import String Ascii List Bool Arith ZArith.
Import ListNotations.
Local Open Scope list_scope.
Local Open Scope string_scope.

(** ** Text *)

(** The line feed, written [\n] in the script. *)
Definition nl : string := String "010"%char EmptyString.

(** The double quote, as a one-character string. *)
Definition dq : string := String "034"%char EmptyString.

(** [s * n] on Python strings. *)
Fixpoint str_mul (s : string) (n : nat) : string :=
  match n with
  | O => ""
  | S k => s ++ str_mul s k
  end.

(** The format specification [{s:20s}]: left-justified in a field of the
    given width, never truncated. *)
Definition ljust (width : nat) (s : string) : string :=
  s ++ str_mul " " (width - String.length s).

(** [needle in hay] on Python strings. *)
Fixpoint contains (needle hay : string) : bool :=
  String.prefix needle hay ||
  match hay with
  | EmptyString => false
  | String _ rest => contains needle rest
  end.

(** ** The inspected tree *)

(** What [open(path, 'r')] followed by [read()] finds at a regular file:
    its decoded text, a permission failure on [open], or bytes that the
    text codec rejects on [read].  A text is a sequence of characters, one
    [ascii] per character, so the model covers texts whose code points are
    below 256. *)
Inductive file_state : Type :=
| Text (content : string)
| NoPermission
| Undecodable.

Inductive node : Type :=
| Directory
| RegularFile (st : file_state).

(** Paths are the relative paths the script uses, resolved against the
    working directory it changed to.  A path that [stat] cannot reach has
    no node. *)
Definition filesystem : Type := string -> option node.

(** ** Exceptions and the output monad *)

(** The exceptions the modelled operations raise.  Each of them is a
    subclass of Python's [Exception]. *)
Inductive exn : Type :=
| FileNotFoundError
| IsADirectoryError
| PermissionError
| UnicodeDecodeError
| ReError.

Inductive outcome (A : Type) : Type :=
| Return (a : A)
| Raise (e : exn).
Arguments Return {A} a.
Arguments Raise {A} e.

(** A computation yields the lines it printed, oldest first, and how it
    ended.  One list element is the argument of one call of [print], as
    the bytes written to standard output. *)
Definition M (A : Type) : Type := (list string * outcome A)%type.

Definition ret {A} (a : A) : M A := ([], Return a).

Definition bind {A B} (m : M A) (k : A -> M B) : M B :=
  match m with
  | (out, Return a) => let (out', r) := k a in ((out ++ out')%list, r)
  | (out, Raise e) => (out, Raise e)
  end.

Definition print (line : string) : M unit := ([line], Return tt).

Definition lift {A} (o : outcome A) : M A := ([], o).

(** [try: body / except Exception: handler]. *)
Definition try_except {A} (body : M A) (handler : exn -> M A) : M A :=
  match body with
  | (out, Return a) => (out, Return a)
  | (out, Raise e) => let (out', r) := handler e in ((out ++ out')%list, r)
  end.

Declare Scope py_scope.
Delimit Scope py_scope with py.
Notation "x <- m ;; k" := (bind m (fun x => k))
  (at level 61, m at next level, right associativity) : py_scope.
Notation "m ;; k" := (bind m (fun _ => k))
  (at level 61, right associativity) : py_scope.
Local Open Scope py_scope.

(** A [for] loop whose body updates one loop-carried boolean. *)
Fixpoint for_each {A} (xs : list A) (body : A -> bool -> M bool)
  (acc : bool) : M bool :=
  match xs with
  | [] => ret acc
  | x :: rest => acc' <- body x acc ;; for_each rest body acc'
  end.

(** ** Filesystem primitives *)

(** [os.path.exists]. *)
Definition path_exists (fs : filesystem) (path : string) : bool :=
  match fs path with
  | Some _ => true
  | None => false
  end.

(** [with open(path, 'r') as f: content = f.read()]. *)
Definition read_text (fs : filesystem) (path : string) : outcome string :=
  match fs path with
  | None => Raise FileNotFoundError
  | Some Directory => Raise IsADirectoryError
  | Some (RegularFile NoPermission) => Raise PermissionError
  | Some (RegularFile Undecodable) => Raise UnicodeDecodeError
  | Some (RegularFile (Text content)) => Return content
  end.

(** ** check_file_exists *)

Definition check_file_exists (fs : filesystem) (filepath description : string)
  : M bool :=
  if path_exists fs filepath then
    print ("✓ " ++ description ++ ": " ++ filepath) ;;
    ret true
  else
    print ("✗ " ++ description ++ " NOT FOUND: " ++ filepath) ;;
    ret false.

(** ** Regular expressions: the fragment of [re] that is modelled

    The patterns of [check_function_exists] are built by pasting the
    function name into six templates, so the name is read as pattern
    syntax.  The model covers the part of the syntax made of ordinary
    characters, [.], the repetitions [*], [+] and [?], alternation [|],
    plain groups and a backslash before a character that is neither an
    ASCII letter nor a digit.  Everything else (classes, counted
    repetition, anchors, extension groups, backslash-letter escapes, a
    repetition directly after a repetition) is left to the parameter
    [re_other] below. *)

Inductive regex : Type :=
| Empty
| Eps
| Chr (c : ascii)
| Dot
| Seq (r1 r2 : regex)
| Alt (r1 r2 : regex)
| Star (r : regex).

(** What one pattern character means to the parser. *)
Inductive token : Type :=
| TLit | TDot | TStar | TPlus | TQuest | TBar | TOpen | TClose
| TBackslash | TOutside.

Definition classify (c : ascii) : token :=
  if (c =? ".")%char then TDot
  else if (c =? "*")%char then TStar
  else if (c =? "+")%char then TPlus
  else if (c =? "?")%char then TQuest
  else if (c =? "|")%char then TBar
  else if (c =? "(")%char then TOpen
  else if (c =? ")")%char then TClose
  else if (c =? "\")%char then TBackslash
  else if (c =? "[")%char || (c =? "]")%char || (c =? "{")%char
          || (c =? "}")%char || (c =? "^")%char || (c =? "$")%char
       then TOutside
  else TLit.

Definition is_ascii_alnum (c : ascii) : bool :=
  let n := nat_of_ascii c in
  (((48 <=? n) && (n <=? 57)) || ((65 <=? n) && (n <=? 90))
  || ((97 <=? n) && (n <=? 122)))%nat.

(** One open group of the parser: the branches already closed by [|] and
    the items of the branch being read, both newest first. *)
Record frame : Type := mk_frame {
  branches : list regex;
  items : list regex
}.

Definition empty_frame : frame := mk_frame [] [].

Definition push_item (a : regex) (f : frame) : frame :=
  mk_frame (branches f) (a :: items f).

(** A branch is the sequence of its items; the newest item is the last
    of the sequence. *)
Definition cons_seq (acc a : regex) : regex := Seq a acc.

Definition seq_of (items_rev : list regex) : regex :=
  fold_left cons_seq items_rev Eps.

(** A group is the alternation of its branches. *)
Definition close_frame (f : frame) : regex :=
  fold_left (fun acc b => Alt b acc) (branches f) (seq_of (items f)).

Inductive compiled : Type :=
| Compiled (r : regex)
| Invalid
| Outside.

(** Repetition of the newest item; [None] is "nothing to repeat". *)
Definition repeat_last (q : regex -> regex) (f : frame) : option frame :=
  match items f with
  | [] => None
  | a :: rest => Some (mk_frame (branches f) (q a :: rest))
  end.

Definition plus (r : regex) : regex := Seq r (Star r).
Definition opt (r : regex) : regex := Alt r Eps.

(** The parser reads the pattern once, left to right, and stops at the
    first error or at the first construct outside the fragment. [rep]
    tells that the newest item is a repetition. *)
Fixpoint parse (p : string) (stack : list frame) (f : frame) (rep : bool)
  : compiled :=
  match p with
  | EmptyString =>
      match stack with
      | [] => Compiled (close_frame f)
      | _ :: _ => Invalid
      end
  | String c rest =>
      let repeat q :=
        match repeat_last q f with
        | None => Invalid
        | Some f' => if rep then Outside else parse rest stack f' true
        end in
      match classify c with
      | TLit => parse rest stack (push_item (Chr c) f) false
      | TDot => parse rest stack (push_item Dot f) false
      | TStar => repeat Star
      | TPlus => repeat plus
      | TQuest => repeat opt
      | TBar =>
          parse rest stack
            (mk_frame (seq_of (items f) :: branches f) []) false
      | TOpen =>
          match rest with
          | String "?"%char _ => Outside
          | _ => parse rest (f :: stack) empty_frame false
          end
      | TClose =>
          match stack with
          | [] => Invalid
          | g :: stack' =>
              parse rest stack' (push_item (close_frame f) g) false
          end
      | TBackslash =>
          match rest with
          | EmptyString => Invalid
          | String d rest' =>
              if is_ascii_alnum d then Outside
              else parse rest' stack (push_item (Chr d) f) false
          end
      | TOutside => Outside
      end
  end.

Definition re_compile (pattern : string) : compiled :=
  parse pattern [] empty_frame false.

(** *** Matching by derivatives *)

Fixpoint nullable (r : regex) : bool :=
  match r with
  | Empty => false
  | Eps => true
  | Chr _ => false
  | Dot => false
  | Seq r1 r2 => nullable r1 && nullable r2
  | Alt r1 r2 => nullable r1 || nullable r2
  | Star _ => true
  end.

Definition seq' (r1 r2 : regex) : regex :=
  match r1 with
  | Empty => Empty
  | Eps => r2
  | _ => Seq r1 r2
  end.

Definition alt' (r1 r2 : regex) : regex :=
  match r1, r2 with
  | Empty, _ => r2
  | _, Empty => r1
  | _, _ => Alt r1 r2
  end.

(** [.] matches every character but the line feed (no flag is passed). *)
Fixpoint deriv (c : ascii) (r : regex) : regex :=
  match r with
  | Empty => Empty
  | Eps => Empty
  | Chr d => if (c =? d)%char then Eps else Empty
  | Dot => if (c =? "010")%char then Empty else Eps
  | Seq r1 r2 =>
      if nullable r1 then alt' (seq' (deriv c r1) r2) (deriv c r2)
      else seq' (deriv c r1) r2
  | Alt r1 r2 => alt' (deriv c r1) (deriv c r2)
  | Star r1 => seq' (deriv c r1) (Star r1)
  end.

(** Does some prefix of [s] match [r]? *)
Fixpoint match_prefix (r : regex) (s : string) : bool :=
  nullable r ||
  match s with
  | EmptyString => false
  | String c rest => match_prefix (deriv c r) rest
  end.

(** Does a match of [r] start at some position of [s]? *)
Fixpoint search (r : regex) (s : string) : bool :=
  match_prefix r s ||
  match s with
  | EmptyString => false
  | String _ rest => search r rest
  end.

(** ** The script *)

Section Script.

(** [re.search] on the patterns outside the modelled fragment: it returns
    whether a match was found, or raises [re.error]. *)
Variable re_other : string -> string -> outcome bool.

(** The inspected tree under the working directory. *)
Variable fs : filesystem.

(** [re.search(pattern, content)], as a truth value. *)
Definition re_search (pattern content : string) : outcome bool :=
  match re_compile pattern with
  | Compiled r => Return (search r content)
  | Invalid => Raise ReError
  | Outside => re_other pattern content
  end.

(** *** check_function_exists *)

Definition function_patterns (function_name : string) : list string :=
  [ "function " ++ function_name;
    "function.*" ++ function_name;
    "local function " ++ function_name;
    "function.*:" ++ function_name;
    function_name ++ " = function";
    "function.*\." ++ function_name ].

(** The loop over the patterns: [Return true] is the [return True] inside
    the loop, [Return false] is falling out of it. *)
Fixpoint search_patterns (patterns : list string) (content : string)
  : outcome bool :=
  match patterns with
  | [] => Return false
  | pattern :: rest =>
      match re_search pattern content with
      | Return true => Return true
      | Return false => search_patterns rest content
      | Raise e => Raise e
      end
  end.

Definition check_function_exists (filepath function_name : string)
  : M bool :=
  try_except
    (content <- lift (read_text fs filepath) ;;
     lift (search_patterns (function_patterns function_name) content))
    (fun _ => ret false).

(** *** check_class_exists *)

Definition check_class_exists (filepath class_name : string) : M bool :=
  try_except
    (content <- lift (read_text fs filepath) ;;
     if contains ("local " ++ class_name) content
        || contains (class_name ++ " = {}") content
     then ret true
     else if contains ("torch.class('" ++ class_name ++ "'") content
             || contains ("torch.class(" ++ dq ++ "nn." ++ class_name ++ dq)
                  content
     then ret true
     else ret false)
    (fun _ => ret false).

(** *** The component validators *)

(** The loop shared by four validators: one line per name, and a miss
    clears [all_present].  The two labels are the texts printed before the
    name ([Function], [Method] or [Test]). *)
Definition check_names (filepath found_label missing_label : string)
  (names : list string) : M bool :=
  for_each names
    (fun func all_present =>
       found <- check_function_exists filepath func ;;
       if found then
         print (found_label ++ func) ;;
         ret all_present
       else
         print (missing_label ++ func) ;;
         ret false)
    true.

Definition rooted_tree_functions : list string :=
  [ "RootedTree.new"; "addChild"; "getNodesAtDepth"; "traverseDFS";
    "traverseBFS"; "getLeaves"; "countRootedTrees"; "getA000081Sequence" ].

Definition validate_rooted_tree : M bool :=
  print (nl ++ "=== Validating RootedTree Module ===") ;;
  let filepath := "rooted_tree.lua" in
  found <- check_file_exists fs filepath "RootedTree module" ;;
  if negb found then ret false
  else
    all_present <- check_names filepath "  ✓ Function: "
                     "  ✗ Function missing: " rooted_tree_functions ;;
    content <- lift (read_text fs filepath) ;;
    if contains "A000081" content || contains "a000081" content then
      print "  ✓ A000081 sequence implementation present" ;;
      ret all_present
    else
      print "  ✗ A000081 sequence implementation missing" ;;
      ret false.

Definition hypershell_functions : list string :=
  [ "Hypershell.new"; "buildShells"; "getShell"; "getNodeDepth";
    "propagateOutward"; "propagateInward"; "spreadAttention" ].

Definition validate_hypershell : M bool :=
  print (nl ++ "=== Validating Hypershell Module ===") ;;
  let filepath := "hypershell.lua" in
  found <- check_file_exists fs filepath "Hypershell module" ;;
  if negb found then ret false
  else
    check_names filepath "  ✓ Function: " "  ✗ Function missing: "
      hypershell_functions.

Definition rooted_hypershell_methods : list string :=
  [ "updateOutput"; "updateGradInput"; "buildTreeFromShells";
    "spreadAttention"; "hierarchicalInference"; "getRelevantNodes" ].

Definition validate_rooted_hypershell : M bool :=
  print (nl ++ "=== Validating RootedHypershell Module ===") ;;
  let filepath := "rooted_hypershell.lua" in
  found <- check_file_exists fs filepath "RootedHypershell module" ;;
  if negb found then ret false
  else
    has_class <- check_class_exists filepath "RootedHypershell" ;;
    if has_class then
      print "  ✓ Class: nn.RootedHypershell" ;;
      check_names filepath "  ✓ Method: " "  ✗ Method missing: "
        rooted_hypershell_methods
    else
      print "  ✗ Class definition missing" ;;
      ret false.

Definition test_names : list string :=
  [ "testRootedTreeBasics"; "testRootedTreeTraversal";
    "testA000081Sequence"; "testHypershellCreation";
    "testRootedHypershell" ].

Definition validate_tests : M bool :=
  print (nl ++ "=== Validating Test Suite ===") ;;
  let filepath := "test/test_rooted_hypershell.lua" in
  found <- check_file_exists fs filepath "Test suite" ;;
  if negb found then ret false
  else
    check_names filepath "  ✓ Test: " "  ✗ Test missing: " test_names.

Definition example_checks : list (string * string) :=
  [ ("RootedTree", "RootedTree usage");
    ("Hypershell", "Hypershell usage");
    ("RootedHypershell", "RootedHypershell usage");
    ("A000081", "A000081 sequence");
    ("spreadAttention", "Attention spreading") ].

Definition validate_examples : M bool :=
  print (nl ++ "=== Validating Examples ===") ;;
  let filepath := "examples/rooted_hypershell_example.lua" in
  found <- check_file_exists fs filepath "Example file" ;;
  if negb found then ret false
  else
    content <- lift (read_text fs filepath) ;;
    for_each example_checks
      (fun check all_present =>
         let (pattern, description) := check in
         if contains pattern content then
           print ("  ✓ " ++ description) ;;
           ret all_present
         else
           print ("  ✗ " ++ description ++ " missing") ;;
           ret false)
      true.

Definition validate_documentation : M bool :=
  print (nl ++ "=== Validating Documentation ===") ;;
  let all_present := true in
  found <- check_file_exists fs "doc/ROOTED_HYPERSHELL.md"
             "Architecture documentation" ;;
  all_present <-
    (if found then
       content <- lift (read_text fs "doc/ROOTED_HYPERSHELL.md") ;;
       (if contains "A000081" content
        then print "  ✓ A000081 documentation present" else ret tt) ;;
       (if contains "Hypershell" content
        then print "  ✓ Hypershell documentation present" else ret tt) ;;
       (if contains "RootedTree" content
        then print "  ✓ RootedTree documentation present" else ret tt) ;;
       ret all_present
     else ret false) ;;
  found <- check_file_exists fs "README.md" "README" ;;
  if found then
    content <- lift (read_text fs "README.md") ;;
    if contains "Rooted Hypershell" content
       || contains "rooted hypershell" content
    then
      print "  ✓ README mentions Rooted Hypershell" ;;
      ret all_present
    else
      print "  ✗ README does not mention Rooted Hypershell" ;;
      ret false
  else ret false.

Definition integration_modules : list string :=
  [ "rooted_tree"; "hypershell"; "rooted_hypershell" ].

Definition validate_integration : M bool :=
  print (nl ++ "=== Validating Integration ===") ;;
  found <- check_file_exists fs "init.lua" "init.lua" ;;
  if negb found then ret false
  else
    content <- lift (read_text fs "init.lua") ;;
    for_each integration_modules
      (fun module all_present =>
         if contains ("require('nngraph." ++ module ++ "')") content
            || contains ("require(" ++ dq ++ "nngraph." ++ module ++ dq
                           ++ ")") content
         then
           print ("  ✓ Module required: " ++ module) ;;
           ret all_present
         else
           print ("  ✗ Module not required: " ++ module) ;;
           ret false)
      true.

(** *** main *)

(** The second half of [main]: the summary table, the closing block and
    the value handed to [sys.exit]. [results] is the dictionary, in
    insertion order. *)
Definition report (results : list (string * bool)) : M Z :=
  print (nl ++ str_mul "=" 60) ;;
  print "Validation Summary" ;;
  print (str_mul "=" 60) ;;
  all_passed <-
    for_each results
      (fun entry all_passed =>
         let (component, passed) := entry in
         let status := if passed then "✓ PASS" else "✗ FAIL" in
         print (ljust 20 component ++ ": " ++ status) ;;
         if negb passed then ret false else ret all_passed)
      true ;;
  print (str_mul "=" 60) ;;
  if all_passed then
    print (nl ++ "✓ All validation checks passed!") ;;
    print (nl ++ "The rooted hypershell architecture implementation includes:") ;;
    print "  • RootedTree with OEIS A000081 sequence enumeration" ;;
    print "  • Hypershell organization with shell-based processing" ;;
    print "  • RootedHypershell neural network integration" ;;
    print "  • Comprehensive test suite" ;;
    print "  • Example usage demonstrations" ;;
    print "  • Complete documentation" ;;
    ret 0%Z
  else
    print (nl ++ "✗ Some validation checks failed.") ;;
    print "Please review the failed checks above." ;;
    ret 1%Z.

Definition main : M Z :=
  print (str_mul "=" 60) ;;
  print "Rooted Hypershell Architecture Validation" ;;
  print (str_mul "=" 60) ;;
  rooted_tree <- validate_rooted_tree ;;
  hypershell <- validate_hypershell ;;
  rooted_hypershell <- validate_rooted_hypershell ;;
  tests <- validate_tests ;;
  examples <- validate_examples ;;
  documentation <- validate_documentation ;;
  integration <- validate_integration ;;
  report
    [ ("RootedTree", rooted_tree);
      ("Hypershell", hypershell);
      ("RootedHypershell", rooted_hypershell);
      ("Tests", tests);
      ("Examples", examples);
      ("Documentation", documentation);
      ("Integration", integration) ].

(** [sys.exit(main())]: the exit status is the value [main] returns, and
    1 when an exception leaves [main] (the interpreter prints the
    traceback on standard error). *)
Definition exit_status : Z :=
  match snd main with
  | Return code => code
  | Raise _ => 1%Z
  end.

End Script.

(** The [__main__] block.  [root] is the tree under the hard-coded working
    directory, or [None] when that directory cannot be entered: then
    [os.chdir] raises before anything is printed. *)
Definition script (re_other : string -> string -> outcome bool)
  (root : option filesystem) : list string * Z :=
  match root with
  | None => ([], 1%Z)
  | Some fs => (fst (main re_other fs), exit_status re_other fs)
  end.

(** ** Specification-level notions *)

(** The language of a regular expression, for stating what the matcher
    computes. *)
Inductive matches : regex -> string -> Prop :=
| MEps : matches Eps ""
| MChr c : matches (Chr c) (String c "")
| MDot c : c <> "010"%char -> matches Dot (String c "")
| MSeq r1 r2 s1 s2 :
    matches r1 s1 -> matches r2 s2 -> matches (Seq r1 r2) (s1 ++ s2)
| MAltL r1 r2 s : matches r1 s -> matches (Alt r1 r2) s
| MAltR r1 r2 s : matches r2 s -> matches (Alt r1 r2) s
| MStarNil r : matches (Star r) ""
| MStarApp r s1 s2 :
    matches r s1 -> matches (Star r) s2 -> matches (Star r) (s1 ++ s2).

(** A name in which every character stands for itself in a pattern. *)
Definition is_plain (name : string) : bool :=
  forallb (fun c => match classify c with TLit => true | _ => false end)
    (list_ascii_of_string name).

(** The items the parser pushes while it reads a plain name, newest
    first. *)
Definition plain_items (n : string) : list regex :=
  rev (map Chr (list_ascii_of_string n)).

(** ** Sample trees *)

(** The tree that holds exactly the listed entries. *)
Fixpoint tree_of (entries : list (string * node)) : filesystem :=
  fun path =>
    match entries with
    | [] => None
    | (p, n) :: rest => if (p =? path)%string then Some n else tree_of rest path
    end.

Definition text_file (path content : string) : string * node :=
  (path, RegularFile (Text content)).

(** An engine that rejects every pattern outside the modelled fragment;
    it instantiates [re_other] where a concrete run is evaluated. *)
Definition re_rejects : string -> string -> outcome bool :=
  fun _ _ => Raise ReError.

(** ** Item results

    The truth values the two content checks hand to the validators. *)

Definition function_found (re_other : string -> string -> outcome bool)
  (fs : filesystem) (filepath name : string) : bool :=
  match snd (check_function_exists re_other fs filepath name) with
  | Return b => b
  | Raise _ => false
  end.

Definition class_found (fs : filesystem) (filepath name : string) : bool :=
  match snd (check_class_exists fs filepath name) with
  | Return b => b
  | Raise _ => false
  end.

(** The line a name loop prints for one name. *)
Definition name_line (found_label missing_label : string) (found : bool)
  (name : string) : string :=
  (if found then found_label else missing_label) ++ name.

(** The line [validate_examples] prints for one check. *)
Definition example_line (content : string) (check : string * string)
  : string :=
  if contains (fst check) content then "  ✓ " ++ snd check
  else "  ✗ " ++ snd check ++ " missing".

(** Is the module pulled in by a [require] of the [nngraph] namespace? *)
Definition module_required (content module : string) : bool :=
  contains ("require('nngraph." ++ module ++ "')") content
  || contains ("require(" ++ dq ++ "nngraph." ++ module ++ dq ++ ")")
       content.

(** The line [validate_integration] prints for one module. *)
Definition module_line (content module : string) : string :=
  if module_required content module
  then "  ✓ Module required: " ++ module
  else "  ✗ Module not required: " ++ module.

(** The line of the summary table for one component. *)
Definition summary_line (entry : string * bool) : string :=
  ljust 20 (fst entry) ++ ": "
  ++ (if snd entry then "✓ PASS" else "✗ FAIL").

(** The confirmations [validate_documentation] prints for the text of the
    architecture document. *)
Definition doc_lines (content : string) : list string :=
  ((if contains "A000081" content
    then ["  ✓ A000081 documentation present"] else [])
   ++ (if contains "Hypershell" content
       then ["  ✓ Hypershell documentation present"] else [])
   ++ (if contains "RootedTree" content
       then ["  ✓ RootedTree documentation present"] else []))%list.

Definition readme_mentions (content : string) : bool :=
  contains "Rooted Hypershell" content
  || contains "rooted hypershell" content.

(** The second half of [validate_documentation], after [printed] was
    printed and [all_present] was set by the first half. *)
Definition readme_part (fs : filesystem) (printed : list string)
  (all_present : bool) : M bool :=
  if path_exists fs "README.md" then
    match read_text fs "README.md" with
    | Return content =>
        if readme_mentions content then
          ((printed ++ [ "✓ README: README.md";
                         "  ✓ README mentions Rooted Hypershell" ])%list,
           Return all_present)
        else
          ((printed ++ [ "✓ README: README.md";
                         "  ✗ README does not mention Rooted Hypershell" ])%list,
           Return false)
    | Raise e => ((printed ++ ["✓ README: README.md"])%list, Raise e)
    end
  else ((printed ++ ["✗ README NOT FOUND: README.md"])%list, Return false).

(** Lua text that defines every listed name as a local function. *)
Definition lua_definitions (names : list string) : string :=
  fold_right
    (fun name rest => "local function " ++ name ++ "() end" ++ nl ++ rest)
    "" names.

(** A tree in which every expected artifact is present and complete. *)
Definition complete_entries : list (string * node) :=
  [ text_file "rooted_tree.lua"
      ("-- OEIS A000081" ++ nl ++ lua_definitions rooted_tree_functions);
    text_file "hypershell.lua" (lua_definitions hypershell_functions);
    text_file "rooted_hypershell.lua"
      ("local RootedHypershell = torch.class('nn.RootedHypershell')" ++ nl
       ++ lua_definitions rooted_hypershell_methods);
    text_file "test/test_rooted_hypershell.lua" (lua_definitions test_names);
    text_file "examples/rooted_hypershell_example.lua"
      "RootedTree, RootedHypershell, A000081, spreadAttention";
    text_file "doc/ROOTED_HYPERSHELL.md" "Design notes";
    text_file "README.md" "Includes the Rooted Hypershell architecture";
    text_file "init.lua"
      ("require('nngraph.rooted_tree')" ++ nl
       ++ "require(" ++ dq ++ "nngraph.hypershell" ++ dq ++ ")" ++ nl
       ++ "require('nngraph.rooted_hypershell')") ].

Definition complete_tree : filesystem := tree_of complete_entries.

(** The complete tree with one entry put in front, which hides the entry
    of the same path. *)
Definition complete_tree_with (path : string) (n : node) : filesystem :=
  tree_of ((path, n) :: complete_entries).

(** The complete tree without the entry of one path. *)
Definition complete_tree_without (path : string) : filesystem :=
  fun p => if (p =? path)%string then None else complete_tree p.

(** The six validators that leave at once when their file is missing,
    each with the path and the description it hands to
    [check_file_exists]. *)
Definition guarded_validators (re_other : string -> string -> outcome bool)
  (fs : filesystem) : list (string * string * M bool) :=
  [ ("rooted_tree.lua", "RootedTree module",
     validate_rooted_tree re_other fs);
    ("hypershell.lua", "Hypershell module", validate_hypershell re_other fs);
    ("rooted_hypershell.lua", "RootedHypershell module",
     validate_rooted_hypershell re_other fs);
    ("test/test_rooted_hypershell.lua", "Test suite",
     validate_tests re_other fs);
    ("examples/rooted_hypershell_example.lua", "Example file",
     validate_examples fs);
    ("init.lua", "init.lua", validate_integration fs) ].



(** ** Notions for the properties of the whole run *)

(** Does a text hold no line feed? *)
Definition one_line (s : string) : bool := negb (contains nl s).

(** What [check_function_exists] looks for when the name is plain: the
    word [function] and, later on the same line, the name; or the name
    followed by [ = function]. *)
Definition defines_function (name content : string) : Prop :=
  (exists before between after,
      content = before ++ "function" ++ between ++ name ++ after
      /\ one_line between = true)
  \/ contains (name ++ " = function") content = true.

(** Does a printed line carry the failure mark? *)
Definition has_cross (line : string) : bool := contains "✗" line.

(** The files a validator opens itself, outside the two guarded checks,
    in the order [main] reaches them. *)
Definition direct_reads : list string :=
  [ "rooted_tree.lua"; "examples/rooted_hypershell_example.lua";
    "doc/ROOTED_HYPERSHELL.md"; "README.md"; "init.lua" ].

(** A path with no entry, or with a regular file whose text can be
    read. *)
Definition absent_or_readable (fs : filesystem) (path : string) : bool :=
  match fs path with
  | None => true
  | Some (RegularFile (Text _)) => true
  | Some _ => false
  end.

(** The banner [main] prints first. *)
Definition banner : list string :=
  [ str_mul "=" 60; "Rooted Hypershell Architecture Validation";
    str_mul "=" 60 ].

(** The closing block of [report]. *)
Definition closing_block (all_passed : bool) : list string :=
  if all_passed then
    [ nl ++ "✓ All validation checks passed!";
      nl ++ "The rooted hypershell architecture implementation includes:";
      "  • RootedTree with OEIS A000081 sequence enumeration";
      "  • Hypershell organization with shell-based processing";
      "  • RootedHypershell neural network integration";
      "  • Comprehensive test suite";
      "  • Example usage demonstrations";
      "  • Complete documentation" ]
  else
    [ nl ++ "✗ Some validation checks failed.";
      "Please review the failed checks above." ].

(** The six patterns of a plain name, compiled: each is a sequence, read
    left to right. *)
Definition plain_pattern_regexes (name : string) : list regex :=
  let lit s := map Chr (list_ascii_of_string s) in
  map (fold_right Seq Eps)
    [ (lit "function " ++ lit name)%list;
      (lit "function" ++ Star Dot :: lit name)%list;
      (lit "local function " ++ lit name)%list;
      (lit "function" ++ Star Dot :: Chr ":" :: lit name)%list;
      (lit name ++ lit " = function")%list;
      (lit "function" ++ Star Dot :: Chr "." :: lit name)%list ].

(** The seven validators in the order [main] runs them. *)
Definition validators (re_other : string -> string -> outcome bool)
  (fs : filesystem) : list (M bool) :=
  [ validate_rooted_tree re_other fs; validate_hypershell re_other fs;
    validate_rooted_hypershell re_other fs; validate_tests re_other fs;
    validate_examples fs; validate_documentation fs;
    validate_integration fs ].

(** What [check_function_exists] looks for when the name is two plain
    parts joined by a dot, as in [RootedTree.new]: the dot of the name
    stands for any one character other than the line feed. *)
Definition defines_dotted (object method content : string) : Prop :=
  (exists before between c after,
      content
      = before ++ "function" ++ between ++ object ++ String c method
        ++ after
      /\ one_line between = true /\ c <> "010"%char)
  \/ (exists before c after,
        content
        = before ++ object ++ String c method ++ " = function" ++ after
        /\ c <> "010"%char).

(** The six patterns of a dotted name, compiled. *)
Definition dotted_pattern_regexes (object method : string) : list regex :=
  let lit s := map Chr (list_ascii_of_string s) in
  let name := (lit object ++ Dot :: lit method)%list in
  map (fold_right Seq Eps)
    [ (lit "function " ++ name)%list;
      (lit "function" ++ Star Dot :: name)%list;
      (lit "local function " ++ name)%list;
      (lit "function" ++ Star Dot :: Chr ":" :: name)%list;
      (name ++ lit " = function")%list;
      (lit "function" ++ Star Dot :: Chr "." :: name)%list ].

(** * Properties *)

(** ** Strings *)

Lemma append_nil_r (s : string) : s ++ "" = s.
Proof. induction s as [|c s IH]; simpl; [reflexivity | now rewrite IH]. Qed.

Lemma append_assoc (a b c : string) : (a ++ b) ++ c = a ++ (b ++ c).
Proof. induction a as [|x a IH]; simpl; [reflexivity | now rewrite IH]. Qed.

Lemma prefix_append (p s : string) : String.prefix p (p ++ s) = true.
Proof.
  induction p as [|c p IH]; simpl.
  - now destruct s.
  - destruct (ascii_dec c c) as [_|ne]; [exact IH | now elim ne].
Qed.

Lemma prefix_split (p s : string) :
  String.prefix p s = true -> exists rest, s = p ++ rest.
Proof.
  revert s; induction p as [|c p IH]; intros s H.
  - now exists s.
  - destruct s as [|d s]; simpl in H; [discriminate|].
    destruct (ascii_dec c d) as [->|]; [|discriminate].
    destruct (IH _ H) as [rest ->]. now exists rest.
Qed.

Lemma contains_cons (needle : string) (c : ascii) (hay : string) :
  contains needle (String c hay)
  = String.prefix needle (String c hay) || contains needle hay.
Proof. reflexivity. Qed.

(** [contains] is the substring relation. *)
Lemma contains_spec (needle hay : string) :
  contains needle hay = true <->
  exists before after, hay = before ++ needle ++ after.
Proof.
  split.
  - induction hay as [|c hay IH]; intros H.
    + destruct needle; [now exists "", "" | discriminate].
    + rewrite contains_cons in H. apply orb_true_iff in H as [H|H].
      * destruct (prefix_split _ _ H) as [r ->]. now exists "", r.
      * destruct (IH H) as (b & a & ->). now exists (String c b), a.
  - intros (b & a & ->). induction b as [|c b IH].
    + change ("" ++ needle ++ a) with (needle ++ a).
      destruct (needle ++ a) eqn:E.
      * destruct needle; [reflexivity | discriminate].
      * rewrite contains_cons, <- E, prefix_append. reflexivity.
    + change (String c b ++ needle ++ a) with (String c (b ++ needle ++ a)).
      rewrite contains_cons, IH. apply orb_true_r.
Qed.

(** ** The matcher finds only matches *)

Lemma nullable_sound (r : regex) : nullable r = true -> matches r "".
Proof.
  induction r; simpl; intros H; try discriminate.
  - constructor.
  - apply andb_true_iff in H as [H1 H2].
    change "" with ("" ++ ""). constructor; auto.
  - apply orb_true_iff in H as [H|H]; [apply MAltL | apply MAltR]; auto.
  - constructor.
Qed.

Lemma seq'_sound (r1 r2 : regex) (s : string) :
  matches (seq' r1 r2) s -> matches (Seq r1 r2) s.
Proof.
  destruct r1; simpl; intros H; auto.
  - inversion H.
  - change s with ("" ++ s). constructor; [constructor | exact H].
Qed.

Lemma alt'_sound (r1 r2 : regex) (s : string) :
  matches (alt' r1 r2) s -> matches (Alt r1 r2) s.
Proof.
  destruct r1, r2; simpl; intros H; auto;
    solve [ now apply MAltR | now apply MAltL ].
Qed.

Lemma deriv_sound (c : ascii) (r : regex) :
  forall s, matches (deriv c r) s -> matches r (String c s).
Proof.
  induction r; simpl; intros s H.
  - inversion H.
  - inversion H.
  - destruct (Ascii.eqb_spec c c0) as [->|]; inversion H; subst. constructor.
  - destruct (Ascii.eqb_spec c "010"%char) as [|ne]; inversion H; subst.
    now constructor.
  - assert (Hseq : forall t, matches (seq' (deriv c r1) r2) t ->
                             matches (Seq r1 r2) (String c t)).
    { intros t Ht. apply seq'_sound in Ht. inversion Ht; subst.
      change (String c (s1 ++ s2)) with (String c s1 ++ s2).
      constructor; auto. }
    destruct (nullable r1) eqn:N; [|now apply Hseq].
    apply alt'_sound in H. inversion H; subst; [now apply Hseq|].
    change (String c s) with ("" ++ String c s).
    constructor; [now apply nullable_sound | auto].
  - apply alt'_sound in H.
    inversion H; subst; [apply MAltL | apply MAltR]; auto.
  - apply seq'_sound in H. inversion H; subst.
    change (String c (s1 ++ s2)) with (String c s1 ++ s2).
    constructor; auto.
Qed.

Lemma match_prefix_sound (s : string) :
  forall r, match_prefix r s = true ->
  exists m rest, s = m ++ rest /\ matches r m.
Proof.
  induction s as [|c s IH]; intros r H; simpl in H.
  - rewrite orb_false_r in H. exists "", "". split; [reflexivity|].
    now apply nullable_sound.
  - apply orb_true_iff in H as [H|H].
    + exists "", (String c s). split; [reflexivity | now apply nullable_sound].
    + destruct (IH _ H) as (m & rest & -> & Hm).
      exists (String c m), rest. split; [reflexivity | now apply deriv_sound].
Qed.

Lemma search_sound (r : regex) (s : string) :
  search r s = true ->
  exists before m after, s = before ++ m ++ after /\ matches r m.
Proof.
  induction s as [|c s IH]; intros H.
  - change (search r "") with (match_prefix r "" || false) in H.
    rewrite orb_false_r in H.
    destruct (match_prefix_sound _ _ H) as (m & rest & E & Hm).
    now exists "", m, rest.
  - change (search r (String c s))
      with (match_prefix r (String c s) || search r s) in H.
    apply orb_true_iff in H as [H|H].
    + destruct (match_prefix_sound _ _ H) as (m & rest & E & Hm).
      now exists "", m, rest.
    + destruct (IH H) as (b & m & a & -> & Hm).
      now exists (String c b), m, a.
Qed.

(** ** The matcher finds every match *)

Lemma append_eq_nil (a b : string) : a ++ b = "" -> a = "" /\ b = "".
Proof. destruct a; simpl; [auto | discriminate]. Qed.

Lemma nullable_complete (r : regex) (s : string) :
  matches r s -> s = "" -> nullable r = true.
Proof.
  induction 1; intros E; simpl; try discriminate; auto.
  - apply append_eq_nil in E as [-> ->]. now rewrite IHmatches1, IHmatches2.
  - now rewrite IHmatches.
  - rewrite IHmatches by assumption. apply orb_true_r.
Qed.

Lemma seq'_complete (r1 r2 : regex) (s1 s2 : string) :
  matches r1 s1 -> matches r2 s2 -> matches (seq' r1 r2) (s1 ++ s2).
Proof.
  intros H1 H2. destruct r1; simpl; try (now constructor).
  - inversion H1.
  - inversion H1; subst. exact H2.
Qed.

Lemma alt'_complete (r1 r2 : regex) (s : string) :
  matches r1 s \/ matches r2 s -> matches (alt' r1 r2) s.
Proof.
  intros [H|H]; destruct r1, r2; simpl; auto;
    solve [ inversion H | now apply MAltL | now apply MAltR ].
Qed.

Lemma deriv_complete (c : ascii) (r : regex) (s0 : string) :
  matches r s0 -> forall s, s0 = String c s -> matches (deriv c r) s.
Proof.
  induction 1; intros t E; simpl; try discriminate.
  - injection E as E1 E2; subst. rewrite Ascii.eqb_refl. constructor.
  - injection E as E1 E2; subst.
    destruct (Ascii.eqb_spec c "010"%char); [contradiction | constructor].
  - destruct s1 as [|d s1]; simpl in E.
    + rewrite (nullable_complete _ _ H eq_refl).
      apply alt'_complete. right. now apply IHmatches2.
    + injection E as E1 E2; subst.
      assert (Hs : matches (seq' (deriv c r1) r2) (s1 ++ s2))
        by (apply seq'_complete; auto).
      destruct (nullable r1); [apply alt'_complete; now left | exact Hs].
  - apply alt'_complete. left. auto.
  - apply alt'_complete. right. auto.
  - destruct s1 as [|d s1]; simpl in E.
    + now apply IHmatches2.
    + injection E as E1 E2; subst. apply seq'_complete; auto.
Qed.

Lemma match_prefix_complete (m rest : string) :
  forall r, matches r m -> match_prefix r (m ++ rest) = true.
Proof.
  induction m as [|c m IH]; intros r H.
  - simpl. destruct rest; simpl; now rewrite (nullable_complete _ _ H eq_refl).
  - simpl. rewrite (IH (deriv c r)); [apply orb_true_r|].
    now apply (deriv_complete _ _ _ H).
Qed.

Lemma search_complete (r : regex) (before m after : string) :
  matches r m -> search r (before ++ m ++ after) = true.
Proof.
  intros H. induction before as [|c b IH].
  - change ("" ++ m ++ after) with (m ++ after).
    pose proof (match_prefix_complete _ after _ H) as P.
    destruct (m ++ after); simpl in *; now rewrite P.
  - change (search r (String c b ++ m ++ after))
      with (match_prefix r (String c (b ++ m ++ after))
            || search r (b ++ m ++ after)).
    rewrite IH. apply orb_true_r.
Qed.

(** [search] decides whether some substring of the text is in the
    language of the expression. *)
Lemma search_spec (r : regex) (s : string) :
  search r s = true <->
  exists before m after, s = before ++ m ++ after /\ matches r m.
Proof.
  split; [apply search_sound|].
  intros (b & m & a & -> & H). now apply search_complete.
Qed.

(** ** Patterns built from a plain name *)

Lemma parse_lit c rest stack f rep :
  classify c = TLit ->
  parse (String c rest) stack f rep
  = parse rest stack (push_item (Chr c) f) false.
Proof. intros H. simpl. now rewrite H. Qed.

Lemma is_plain_cons c n :
  is_plain (String c n) = true -> classify c = TLit /\ is_plain n = true.
Proof.
  unfold is_plain; simpl. intros H. apply andb_true_iff in H as [H1 H2].
  split; [|exact H2]. now destruct (classify c).
Qed.

Lemma parse_plain n :
  forall rest stack f rep,
    is_plain n = true -> n <> "" ->
    parse (n ++ rest) stack f rep
    = parse rest stack (mk_frame (branches f) (plain_items n ++ items f))
        false.
Proof.
  induction n as [|c n IH]; intros rest stack f rep P NE; [congruence|].
  apply is_plain_cons in P as [Pc Pn].
  change (String c n ++ rest) with (String c (n ++ rest)).
  rewrite parse_lit by assumption.
  destruct n as [|d n]; [reflexivity|].
  rewrite IH by (assumption || discriminate).
  unfold plain_items. simpl. now rewrite <- !app_assoc.
Qed.

Lemma parse_plain_end n f rep :
  is_plain n = true -> n <> "" ->
  parse n [] f rep
  = Compiled (close_frame (mk_frame (branches f) (plain_items n ++ items f))).
Proof.
  intros P NE. rewrite <- (append_nil_r n) at 1.
  now rewrite parse_plain.
Qed.

Lemma matches_fold_suffix (ys : list regex) :
  forall acc m, matches (fold_left cons_seq ys acc) m ->
  exists m1 m2, m = m1 ++ m2 /\ matches acc m2.
Proof.
  induction ys as [|y ys IH]; intros acc m H; simpl in H.
  - now exists "", m.
  - destruct (IH _ _ H) as (m1 & m2 & -> & H2).
    inversion H2; subst. exists (m1 ++ s1), s2.
    split; [now rewrite append_assoc | assumption].
Qed.

Lemma matches_fold_plain (n : string) :
  forall acc m, matches (fold_left cons_seq (plain_items n) acc) m ->
  exists m2, m = n ++ m2 /\ matches acc m2.
Proof.
  induction n as [|c n IH]; intros acc m H.
  - now exists m.
  - change (plain_items (String c n)) with (plain_items n ++ [Chr c])%list in H.
    rewrite fold_left_app in H. simpl in H. unfold cons_seq in H at 1.
    inversion H as [| | |r1 r2 s1 s2 Hc Hrest| | | |]; subst.
    inversion Hc; subst.
    destruct (IH _ _ Hrest) as (m2 & -> & Hm2). now exists m2.
Qed.

(** Every match of a sequence that has the characters of [n] as
    consecutive items contains [n]. *)
Lemma matches_seq_of_plain (xs ys : list regex) (n m : string) :
  matches (seq_of (xs ++ plain_items n ++ ys)) m ->
  exists a b, m = a ++ n ++ b.
Proof.
  unfold seq_of. rewrite !fold_left_app. intros H.
  destruct (matches_fold_suffix _ _ _ H) as (m1 & m2 & -> & H2).
  destruct (matches_fold_plain _ _ _ H2) as (m3 & -> & _).
  now exists m1, m3.
Qed.

Lemma plain_pattern_language (n : string) :
  is_plain n = true -> n <> "" ->
  forall p, In p (function_patterns n) ->
  exists r, re_compile p = Compiled r /\
            forall m, matches r m -> exists a b, m = a ++ n ++ b.
Proof.
  intros P NE p Hin. unfold function_patterns in Hin. simpl in Hin.
  unfold re_compile.
  destruct Hin as [<-|[<-|[<-|[<-|[<-|[<-|[]]]]]]].
  - simpl. rewrite parse_plain_end by assumption. eexists; split; [reflexivity|].
    unfold close_frame; simpl. intros m. apply (matches_seq_of_plain []).
  - simpl. rewrite parse_plain_end by assumption. eexists; split; [reflexivity|].
    unfold close_frame; simpl. intros m. apply (matches_seq_of_plain []).
  - simpl. rewrite parse_plain_end by assumption. eexists; split; [reflexivity|].
    unfold close_frame; simpl. intros m. apply (matches_seq_of_plain []).
  - simpl. rewrite parse_plain_end by assumption. eexists; split; [reflexivity|].
    unfold close_frame; simpl. intros m. apply (matches_seq_of_plain []).
  - rewrite parse_plain by assumption. simpl.
    eexists; split; [reflexivity|].
    unfold close_frame; simpl. intros m.
    exact (matches_seq_of_plain
             (map Chr (list_ascii_of_string "noitcnuf = ")) [] n m).
  - simpl. rewrite parse_plain_end by assumption. eexists; split; [reflexivity|].
    unfold close_frame; simpl. intros m. apply (matches_seq_of_plain []).
Qed.

(** ** check_file_exists *)

(** C4, as amended: [check_file_exists] answers true exactly when the path
    has an entry of any kind (a regular file, readable or not, or a
    directory) and false exactly when it has none. *)
Theorem check_file_exists_any_entry :
  forall (fs : filesystem) (filepath description : string),
    (snd (check_file_exists fs filepath description) = Return true
     <-> exists n, fs filepath = Some n)
    /\ (snd (check_file_exists fs filepath description) = Return false
        <-> fs filepath = None)
    /\ (exists b line,
          check_file_exists fs filepath description = ([line], Return b)).
Proof.
  intros fs filepath description. unfold check_file_exists, path_exists.
  destruct (fs filepath) as [n|]; simpl.
  - repeat split; try discriminate; eauto.
  - repeat split; try discriminate; eauto.
    intros [n H]. discriminate.
Qed.

Lemma check_file_exists_any_entry_witness :
  snd (check_file_exists complete_tree "README.md" "README") = Return true
  /\ snd (check_file_exists (complete_tree_without "README.md") "README.md"
            "README") = Return false.
Proof.
  split.
  - apply (check_file_exists_any_entry complete_tree "README.md" "README").
    eexists. reflexivity.
  - apply (check_file_exists_any_entry (complete_tree_without "README.md")
             "README.md" "README").
    reflexivity.
Defined.

(** C4, as stated, fails: a directory and an unreadable file both make
    [check_file_exists] answer true. *)
Lemma check_file_exists_directory :
  let fs := tree_of [ ("rooted_tree.lua", Directory);
                      ("hypershell.lua", RegularFile NoPermission) ] in
  (snd (check_file_exists fs "rooted_tree.lua" "RootedTree module")
     = Return true
   /\ fs "rooted_tree.lua" = Some Directory)
  /\ (snd (check_file_exists fs "hypershell.lua" "Hypershell module")
        = Return true
      /\ read_text fs "hypershell.lua" = Raise PermissionError).
Proof. vm_compute. auto. Qed.

(** ** check_function_exists and check_class_exists *)

Lemma check_function_exists_eq re_other fs filepath name :
  check_function_exists re_other fs filepath name
  = ([], Return
           match read_text fs filepath with
           | Return content =>
               match search_patterns re_other (function_patterns name)
                       content with
               | Return b => b
               | Raise _ => false
               end
           | Raise _ => false
           end).
Proof.
  unfold check_function_exists, try_except, bind, lift, ret.
  generalize (search_patterns re_other (function_patterns name)).
  intros sp. destruct (read_text fs filepath) as [content|e]; simpl;
    [|reflexivity].
  now destruct (sp content) as [[|]|e].
Qed.

Lemma check_class_exists_eq fs filepath name :
  check_class_exists fs filepath name
  = ([], Return
           match read_text fs filepath with
           | Return content =>
               contains ("local " ++ name) content
               || contains (name ++ " = {}") content
               || contains ("torch.class('" ++ name ++ "'") content
               || contains ("torch.class(" ++ dq ++ "nn." ++ name ++ dq)
                    content
           | Raise _ => false
           end).
Proof.
  unfold check_class_exists, try_except, bind, lift, ret.
  destruct (read_text fs filepath) as [content|e]; simpl; [|reflexivity].
  repeat match goal with
         | |- context [contains ?a ?b] => destruct (contains a b)
         end; reflexivity.
Qed.

(** C9: both checks always return a truth value and print nothing; a
    failed read and a failed pattern search both end in [False]. *)
Theorem checks_never_raise :
  forall re_other (fs : filesystem) (filepath name : string),
    (exists b, check_function_exists re_other fs filepath name
               = ([], Return b))
    /\ (exists b, check_class_exists fs filepath name = ([], Return b))
    /\ (forall e, read_text fs filepath = Raise e ->
          check_function_exists re_other fs filepath name
            = ([], Return false)
          /\ check_class_exists fs filepath name = ([], Return false))
    /\ (forall content e,
          read_text fs filepath = Return content ->
          search_patterns re_other (function_patterns name) content
            = Raise e ->
          check_function_exists re_other fs filepath name
            = ([], Return false)).
Proof.
  intros re_other fs filepath name.
  rewrite check_function_exists_eq, check_class_exists_eq.
  split; [eauto | split; [eauto | split]].
  - intros e H. now rewrite H.
  - intros content e H1 H2. now rewrite H1, H2.
Qed.

Lemma checks_never_raise_witness :
  let fs := tree_of [ text_file "rooted_tree.lua" "function addChild()" ] in
  (check_function_exists re_rejects fs "missing.lua" "addChild"
     = ([], Return false)
   /\ check_class_exists fs "missing.lua" "addChild" = ([], Return false))
  /\ check_function_exists re_rejects fs "rooted_tree.lua" "("
     = ([], Return false).
Proof.
  split.
  - apply (checks_never_raise re_rejects _ "missing.lua" "addChild")
      with (e := FileNotFoundError).
    reflexivity.
  - apply (checks_never_raise re_rejects _ "rooted_tree.lua" "(")
      with (content := "function addChild()") (e := ReError);
      reflexivity.
Defined.

(** A pattern inside the fragment is searched without consulting
    [re_other]. *)
Lemma re_search_compiled re_other pattern r content :
  re_compile pattern = Compiled r ->
  re_search re_other pattern content = Return (search r content).
Proof. intros H. unfold re_search. now rewrite H. Qed.

Lemma search_patterns_true re_other content :
  forall patterns,
    search_patterns re_other patterns content = Return true ->
    exists pattern,
      In pattern patterns
      /\ re_search re_other pattern content = Return true.
Proof.
  induction patterns as [|p ps IH]; simpl; intros H; [discriminate|].
  destruct (re_search re_other p content) as [[|]|e] eqn:E;
    try discriminate.
  - exists p. auto.
  - destruct (IH H) as (q & Hq & Hs). exists q. auto.
Qed.

Lemma search_patterns_all_false re_other content :
  forall patterns,
    (forall p, In p patterns ->
               re_search re_other p content = Return false) ->
    search_patterns re_other patterns content = Return false.
Proof.
  induction patterns as [|p ps IH]; simpl; intros H; [reflexivity|].
  rewrite (H p) by auto. apply IH. intros q Hq. apply H. auto.
Qed.

Lemma contains_nil (hay : string) : contains "" hay = true.
Proof. now destruct hay. Qed.

(** C5, as amended: [check_function_exists] answers true only when one
    of the six patterns, read as a regular expression, is found in the
    text by [re.search]; and for a name made of plain characters only, it
    answers false whenever the name does not occur in the text. *)
Theorem check_function_exists_plain_name :
  forall re_other (fs : filesystem) (filepath name : string),
    (snd (check_function_exists re_other fs filepath name) = Return true ->
     exists content pattern,
       read_text fs filepath = Return content
       /\ In pattern (function_patterns name)
       /\ re_search re_other pattern content = Return true)
    /\ (is_plain name = true ->
        forall content,
          read_text fs filepath = Return content ->
          contains name content = false ->
          check_function_exists re_other fs filepath name
            = ([], Return false)).
Proof.
  intros re_other fs filepath name.
  rewrite check_function_exists_eq. split.
  - cbv beta iota delta [snd]. intros H.
    destruct (read_text fs filepath) as [content|e]; [|discriminate].
    destruct (search_patterns re_other (function_patterns name) content)
      as [[|]|e] eqn:E; try discriminate.
    destruct (search_patterns_true _ _ _ E) as (p & Hp & Hs).
    now exists content, p.
  - intros P content Hread Habsent. rewrite Hread.
    assert (NE : name <> "").
    { intros ->. now rewrite contains_nil in Habsent. }
    rewrite search_patterns_all_false; [reflexivity|].
    intros p Hp.
    destruct (plain_pattern_language name P NE p Hp) as (r & Hr & Hlang).
    rewrite (re_search_compiled _ _ _ _ Hr). f_equal.
    destruct (search r content) eqn:S; [|reflexivity].
    apply search_sound in S as (b & m & a & -> & Hm).
    destruct (Hlang _ Hm) as (a' & b' & ->).
    rewrite <- Habsent. symmetry. apply contains_spec.
    exists (b ++ a'), (b' ++ a). now rewrite !append_assoc.
Qed.

Lemma check_function_exists_plain_name_witness :
  let fs := tree_of [ text_file "rooted_tree.lua"
                        "function RootedTree:addChild(node)" ] in
  (exists content pattern,
     read_text fs "rooted_tree.lua" = Return content
     /\ In pattern (function_patterns "addChild")
     /\ re_search re_rejects pattern content = Return true)
  /\ check_function_exists re_rejects fs "rooted_tree.lua" "getLeaves"
     = ([], Return false).
Proof.
  split.
  - apply (check_function_exists_plain_name re_rejects _
             "rooted_tree.lua" "addChild").
    reflexivity.
  - apply (check_function_exists_plain_name re_rejects _
             "rooted_tree.lua" "getLeaves")
      with (content := "function RootedTree:addChild(node)");
      reflexivity.
Defined.

(** C5, as stated, fails: the name [RootedTree.new] does not occur in the
    text, and the check answers true, because the dot of the name is read
    as "any character".  The first pattern decides, and it lies inside the
    modelled fragment. *)
Lemma check_function_exists_dot_in_name :
  let content := "function RootedTree:new(label)" in
  let fs := tree_of [ text_file "rooted_tree.lua" content ] in
  contains "RootedTree.new" content = false
  /\ check_function_exists re_rejects fs "rooted_tree.lua" "RootedTree.new"
     = ([], Return true).
Proof. vm_compute. auto. Qed.

(** C6, as amended: [check_class_exists] answers true exactly when the
    file can be read and its text contains [local <name>], [<name> = {}],
    [torch.class('<name>'] or [torch.class("nn.<name>"]. *)
Theorem check_class_exists_forms :
  forall (fs : filesystem) (filepath name : string),
    snd (check_class_exists fs filepath name) = Return true
    <-> exists content,
          read_text fs filepath = Return content
          /\ (contains ("local " ++ name) content = true
              \/ contains (name ++ " = {}") content = true
              \/ contains ("torch.class('" ++ name ++ "'") content = true
              \/ contains ("torch.class(" ++ dq ++ "nn." ++ name ++ dq)
                   content = true).
Proof.
  intros fs filepath name. rewrite check_class_exists_eq.
  cbv beta iota delta [snd].
  destruct (read_text fs filepath) as [content|e].
  - split.
    + intros H. injection H as H. exists content. split; [reflexivity|].
      repeat (apply orb_true_iff in H as [H|H]); auto.
    + intros (c & Hc & H). injection Hc as <-. f_equal.
      rewrite !orb_true_iff. tauto.
  - split; [discriminate|]. intros (c & Hc & _). discriminate.
Qed.

Lemma check_class_exists_forms_witness :
  snd (check_class_exists
         (tree_of [ text_file "rooted_hypershell.lua"
                      "torch.class('RootedHypershell', 'nn.Module')" ])
         "rooted_hypershell.lua" "RootedHypershell")
  = Return true.
Proof.
  apply check_class_exists_forms.
  exists "torch.class('RootedHypershell', 'nn.Module')".
  split; [reflexivity|]. right. right. left. reflexivity.
Defined.

(** C6, as stated, fails: the single-quoted form with the [nn.] prefix and
    the double-quoted form without it are not recognised. *)
Lemma check_class_exists_unrecognised_forms :
  let quoted := "torch.class('nn.RootedHypershell', 'nn.Module')" in
  let bare :=
    "torch.class(" ++ dq ++ "RootedHypershell" ++ dq ++ ")" in
  check_class_exists (tree_of [ text_file "rooted_hypershell.lua" quoted ])
    "rooted_hypershell.lua" "RootedHypershell" = ([], Return false)
  /\ check_class_exists (tree_of [ text_file "rooted_hypershell.lua" bare ])
       "rooted_hypershell.lua" "RootedHypershell" = ([], Return false).
Proof. vm_compute. auto. Qed.

(** ** Loops *)

Lemma for_each_lines {A} (test : A -> bool) (line : A -> string)
  (body : A -> bool -> M bool) :
  (forall x acc, body x acc = ([line x], Return (acc && test x))) ->
  forall xs acc,
    for_each xs body acc = (map line xs, Return (acc && forallb test xs)).
Proof.
  intros Hbody. induction xs as [|x xs IH]; intros acc; simpl.
  - now rewrite andb_true_r.
  - rewrite Hbody. unfold bind. rewrite IH. simpl.
    now rewrite andb_assoc.
Qed.

Lemma function_found_eq re_other fs filepath name :
  check_function_exists re_other fs filepath name
  = ([], Return (function_found re_other fs filepath name)).
Proof.
  unfold function_found. now rewrite check_function_exists_eq.
Qed.

Lemma class_found_eq fs filepath name :
  check_class_exists fs filepath name
  = ([], Return (class_found fs filepath name)).
Proof. unfold class_found. now rewrite check_class_exists_eq. Qed.

(** A name loop prints one line per name, in order, and returns the
    conjunction of the item results. *)
Lemma check_names_eq re_other fs filepath found_label missing_label names :
  check_names re_other fs filepath found_label missing_label names
  = (map (fun n => name_line found_label missing_label
                     (function_found re_other fs filepath n) n) names,
     Return (forallb (function_found re_other fs filepath) names)).
Proof.
  unfold check_names.
  rewrite for_each_lines
    with (test := function_found re_other fs filepath)
         (line := fun n => name_line found_label missing_label
                             (function_found re_other fs filepath n) n).
  - reflexivity.
  - intros n acc. rewrite function_found_eq. unfold name_line, bind.
    destruct (function_found re_other fs filepath n); simpl.
    + now rewrite andb_true_r.
    + now rewrite andb_false_r.
Qed.

Lemma check_file_exists_eq fs filepath description :
  check_file_exists fs filepath description
  = if path_exists fs filepath
    then (["✓ " ++ description ++ ": " ++ filepath], Return true)
    else (["✗ " ++ description ++ " NOT FOUND: " ++ filepath],
          Return false).
Proof. unfold check_file_exists. now destruct (path_exists fs filepath). Qed.

Lemma read_text_exists fs filepath content :
  read_text fs filepath = Return content -> path_exists fs filepath = true.
Proof.
  unfold read_text, path_exists. now destruct (fs filepath).
Qed.

(** ** The validators, equation by equation *)

Lemma validate_hypershell_eq re_other fs :
  validate_hypershell re_other fs
  = if path_exists fs "hypershell.lua" then
      ((nl ++ "=== Validating Hypershell Module ===")
       :: "✓ Hypershell module: hypershell.lua"
       :: map (fun n => name_line "  ✓ Function: " "  ✗ Function missing: "
                          (function_found re_other fs "hypershell.lua" n) n)
            hypershell_functions,
       Return (forallb (function_found re_other fs "hypershell.lua")
                 hypershell_functions))
    else
      ([ nl ++ "=== Validating Hypershell Module ===";
         "✗ Hypershell module NOT FOUND: hypershell.lua" ],
       Return false).
Proof.
  unfold validate_hypershell. rewrite check_file_exists_eq.
  destruct (path_exists fs "hypershell.lua"); [|reflexivity].
  unfold bind at 1 2. unfold print. cbv beta iota. unfold negb.
  now rewrite check_names_eq.
Qed.

Lemma validate_tests_eq re_other fs :
  validate_tests re_other fs
  = if path_exists fs "test/test_rooted_hypershell.lua" then
      ((nl ++ "=== Validating Test Suite ===")
       :: "✓ Test suite: test/test_rooted_hypershell.lua"
       :: map (fun n => name_line "  ✓ Test: " "  ✗ Test missing: "
                          (function_found re_other fs
                             "test/test_rooted_hypershell.lua" n) n)
            test_names,
       Return (forallb (function_found re_other fs
                          "test/test_rooted_hypershell.lua") test_names))
    else
      ([ nl ++ "=== Validating Test Suite ===";
         "✗ Test suite NOT FOUND: test/test_rooted_hypershell.lua" ],
       Return false).
Proof.
  unfold validate_tests. rewrite check_file_exists_eq.
  destruct (path_exists fs "test/test_rooted_hypershell.lua");
    [|reflexivity].
  unfold bind at 1 2. unfold print. cbv beta iota. unfold negb.
  now rewrite check_names_eq.
Qed.

Lemma validate_rooted_tree_eq re_other fs :
  validate_rooted_tree re_other fs
  = if path_exists fs "rooted_tree.lua" then
      let lines :=
        (nl ++ "=== Validating RootedTree Module ===")
        :: "✓ RootedTree module: rooted_tree.lua"
        :: map (fun n => name_line "  ✓ Function: " "  ✗ Function missing: "
                           (function_found re_other fs "rooted_tree.lua" n)
                           n)
             rooted_tree_functions in
      match read_text fs "rooted_tree.lua" with
      | Return content =>
          if contains "A000081" content || contains "a000081" content then
            ((lines ++ ["  ✓ A000081 sequence implementation present"])%list,
             Return (forallb (function_found re_other fs "rooted_tree.lua")
                       rooted_tree_functions))
          else
            ((lines ++ ["  ✗ A000081 sequence implementation missing"])%list,
             Return false)
      | Raise e => (lines, Raise e)
      end
    else
      ([ nl ++ "=== Validating RootedTree Module ===";
         "✗ RootedTree module NOT FOUND: rooted_tree.lua" ],
       Return false).
Proof.
  unfold validate_rooted_tree. rewrite check_file_exists_eq.
  destruct (path_exists fs "rooted_tree.lua"); [|reflexivity].
  unfold bind at 1 2. unfold print. cbv beta iota. unfold negb.
  unfold bind at 1. rewrite check_names_eq. cbv beta iota zeta.
  destruct (read_text fs "rooted_tree.lua") as [content|e];
    [|reflexivity].
  unfold lift, bind at 1.
  now destruct (contains "A000081" content || contains "a000081" content).
Qed.

Lemma validate_rooted_hypershell_eq re_other fs :
  validate_rooted_hypershell re_other fs
  = if path_exists fs "rooted_hypershell.lua" then
      if class_found fs "rooted_hypershell.lua" "RootedHypershell" then
        ((nl ++ "=== Validating RootedHypershell Module ===")
         :: "✓ RootedHypershell module: rooted_hypershell.lua"
         :: "  ✓ Class: nn.RootedHypershell"
         :: map (fun n => name_line "  ✓ Method: " "  ✗ Method missing: "
                            (function_found re_other fs
                               "rooted_hypershell.lua" n) n)
              rooted_hypershell_methods,
         Return (forallb (function_found re_other fs "rooted_hypershell.lua")
                   rooted_hypershell_methods))
      else
        ([ nl ++ "=== Validating RootedHypershell Module ===";
           "✓ RootedHypershell module: rooted_hypershell.lua";
           "  ✗ Class definition missing" ],
         Return false)
    else
      ([ nl ++ "=== Validating RootedHypershell Module ===";
         "✗ RootedHypershell module NOT FOUND: rooted_hypershell.lua" ],
       Return false).
Proof.
  unfold validate_rooted_hypershell. rewrite check_file_exists_eq.
  destruct (path_exists fs "rooted_hypershell.lua"); [|reflexivity].
  unfold bind at 1 2. unfold print. cbv beta iota. unfold negb.
  rewrite class_found_eq. unfold bind at 1.
  destruct (class_found fs "rooted_hypershell.lua" "RootedHypershell");
    [|reflexivity].
  unfold bind at 1. now rewrite check_names_eq.
Qed.

Lemma validate_examples_eq fs :
  validate_examples fs
  = if path_exists fs "examples/rooted_hypershell_example.lua" then
      match read_text fs "examples/rooted_hypershell_example.lua" with
      | Return content =>
          ((nl ++ "=== Validating Examples ===")
           :: "✓ Example file: examples/rooted_hypershell_example.lua"
           :: map (example_line content) example_checks,
           Return (forallb (fun check => contains (fst check) content)
                     example_checks))
      | Raise e =>
          ([ nl ++ "=== Validating Examples ===";
             "✓ Example file: examples/rooted_hypershell_example.lua" ],
           Raise e)
      end
    else
      ([ nl ++ "=== Validating Examples ===";
         "✗ Example file NOT FOUND: examples/rooted_hypershell_example.lua" ],
       Return false).
Proof.
  unfold validate_examples. rewrite check_file_exists_eq.
  destruct (path_exists fs "examples/rooted_hypershell_example.lua");
    [|reflexivity].
  unfold bind at 1 2. unfold print. cbv beta iota. unfold negb.
  destruct (read_text fs "examples/rooted_hypershell_example.lua")
    as [content|e]; [|reflexivity].
  unfold lift, bind at 1.
  rewrite for_each_lines
    with (test := fun check => contains (fst check) content)
         (line := example_line content).
  - reflexivity.
  - intros [pattern description] acc. unfold example_line, bind. simpl.
    destruct (contains pattern content); simpl.
    + now rewrite andb_true_r.
    + now rewrite andb_false_r.
Qed.

Lemma validate_integration_eq fs :
  validate_integration fs
  = if path_exists fs "init.lua" then
      match read_text fs "init.lua" with
      | Return content =>
          ((nl ++ "=== Validating Integration ===")
           :: "✓ init.lua: init.lua"
           :: map (module_line content) integration_modules,
           Return (forallb (module_required content) integration_modules))
      | Raise e =>
          ([ nl ++ "=== Validating Integration ===";
             "✓ init.lua: init.lua" ],
           Raise e)
      end
    else
      ([ nl ++ "=== Validating Integration ===";
         "✗ init.lua NOT FOUND: init.lua" ],
       Return false).
Proof.
  unfold validate_integration. rewrite check_file_exists_eq.
  destruct (path_exists fs "init.lua"); [|reflexivity].
  unfold bind at 1 2. unfold print. cbv beta iota. unfold negb.
  destruct (read_text fs "init.lua") as [content|e]; [|reflexivity].
  unfold lift, bind at 1.
  rewrite for_each_lines
    with (test := module_required content) (line := module_line content).
  - reflexivity.
  - intros module acc. unfold module_line, bind.
    fold (module_required content module).
    destruct (module_required content module); simpl.
    + now rewrite andb_true_r.
    + now rewrite andb_false_r.
Qed.

Lemma validate_documentation_eq fs :
  validate_documentation fs
  = if path_exists fs "doc/ROOTED_HYPERSHELL.md" then
      match read_text fs "doc/ROOTED_HYPERSHELL.md" with
      | Return content =>
          readme_part fs
            ((nl ++ "=== Validating Documentation ===")
             :: "✓ Architecture documentation: doc/ROOTED_HYPERSHELL.md"
             :: doc_lines content)
            true
      | Raise e =>
          ([ nl ++ "=== Validating Documentation ===";
             "✓ Architecture documentation: doc/ROOTED_HYPERSHELL.md" ],
           Raise e)
      end
    else
      readme_part fs
        [ nl ++ "=== Validating Documentation ===";
          "✗ Architecture documentation NOT FOUND: doc/ROOTED_HYPERSHELL.md" ]
        false.
Proof.
  unfold validate_documentation, readme_part, doc_lines, readme_mentions.
  rewrite !check_file_exists_eq.
  destruct (path_exists fs "doc/ROOTED_HYPERSHELL.md").
  - destruct (read_text fs "doc/ROOTED_HYPERSHELL.md") as [content|e];
      [|reflexivity].
    unfold bind, lift, print, ret; cbv beta iota.
    destruct (contains "A000081" content), (contains "Hypershell" content),
      (contains "RootedTree" content), (path_exists fs "README.md");
      cbv beta iota; try reflexivity;
      (destruct (read_text fs "README.md") as [readme|e]; [|reflexivity];
       now destruct (contains "Rooted Hypershell" readme
                     || contains "rooted hypershell" readme)).
  - unfold bind, lift, print, ret; cbv beta iota.
    destruct (path_exists fs "README.md"); [|reflexivity].
    cbv beta iota.
    destruct (read_text fs "README.md") as [readme|e]; [|reflexivity].
    now destruct (contains "Rooted Hypershell" readme
                  || contains "rooted hypershell" readme).
Qed.

(** ** main *)

Lemma snd_bind {A B} (m : M A) (k : A -> M B) :
  snd (bind m k)
  = match snd m with
    | Return a => snd (k a)
    | Raise e => Raise e
    end.
Proof.
  destruct m as [out [a|e]]; simpl; [|reflexivity]. now destruct (k a).
Qed.

Lemma fst_bind {A B} (m : M A) (k : A -> M B) :
  fst (bind m k)
  = (fst m ++ match snd m with
              | Return a => fst (k a)
              | Raise _ => []
              end)%list.
Proof.
  destruct m as [out [a|e]]; simpl; [now destruct (k a)|].
  now rewrite app_nil_r.
Qed.

Lemma snd_print_bind {B} (line : string) (k : unit -> M B) :
  snd (bind (print line) k) = snd (k tt).
Proof. unfold bind, print. now destruct (k tt). Qed.

(** The value [report] hands to [sys.exit]. *)
Lemma report_code (results : list (string * bool)) :
  snd (report results)
  = Return (if forallb snd results then 0 else 1)%Z.
Proof.
  unfold report. rewrite !snd_print_bind, snd_bind.
  rewrite for_each_lines with (test := snd) (line := summary_line).
  - cbn [snd]. rewrite snd_print_bind. rewrite andb_true_l.
    destruct (forallb snd results); now rewrite !snd_print_bind.
  - intros [component passed] acc. unfold summary_line, bind, print.
    destruct passed; simpl.
    + now rewrite andb_true_r.
    + now rewrite andb_false_r.
Qed.

Lemma main_code re_other fs :
  snd (main re_other fs)
  = match snd (validate_rooted_tree re_other fs),
          snd (validate_hypershell re_other fs),
          snd (validate_rooted_hypershell re_other fs),
          snd (validate_tests re_other fs),
          snd (validate_examples fs),
          snd (validate_documentation fs),
          snd (validate_integration fs) with
    | Return v1, Return v2, Return v3, Return v4, Return v5, Return v6,
      Return v7 =>
        Return (if v1 && v2 && v3 && v4 && v5 && v6 && v7 then 0 else 1)%Z
    | Raise e, _, _, _, _, _, _
    | Return _, Raise e, _, _, _, _, _
    | Return _, Return _, Raise e, _, _, _, _
    | Return _, Return _, Return _, Raise e, _, _, _
    | Return _, Return _, Return _, Return _, Raise e, _, _
    | Return _, Return _, Return _, Return _, Return _, Raise e, _
    | Return _, Return _, Return _, Return _, Return _, Return _, Raise e =>
        Raise e
    end.
Proof.
  unfold main. rewrite !snd_print_bind, snd_bind.
  destruct (snd (validate_rooted_tree re_other fs)) as [v1|e];
    [|reflexivity].
  rewrite snd_bind.
  destruct (snd (validate_hypershell re_other fs)) as [v2|e];
    [|reflexivity].
  rewrite snd_bind.
  destruct (snd (validate_rooted_hypershell re_other fs)) as [v3|e];
    [|reflexivity].
  rewrite snd_bind.
  destruct (snd (validate_tests re_other fs)) as [v4|e]; [|reflexivity].
  rewrite snd_bind.
  destruct (snd (validate_examples fs)) as [v5|e]; [|reflexivity].
  rewrite snd_bind.
  destruct (snd (validate_documentation fs)) as [v6|e]; [|reflexivity].
  rewrite snd_bind.
  destruct (snd (validate_integration fs)) as [v7|e]; [|reflexivity].
  rewrite report_code. simpl. rewrite andb_true_r.
  now rewrite !andb_assoc.
Qed.

(** Case analysis on how one validator ended; the goal is about an exit
    status, and a raised exception settles it at once. *)
Ltac outcome_cases o :=
  destruct o as [[|]|?]; cbv beta iota;
  [ | | solve [ split; [ split; [ discriminate
                               | intros H; decompose [and] H; congruence ]
                        | right; reflexivity ] ] ].

(** The exit status is 0 exactly when each of the seven validators
    returns true, and 1 otherwise, a raised exception included. *)
Lemma exit_status_zero re_other fs :
  (exit_status re_other fs = 0%Z
   <-> snd (validate_rooted_tree re_other fs) = Return true
       /\ snd (validate_hypershell re_other fs) = Return true
       /\ snd (validate_rooted_hypershell re_other fs) = Return true
       /\ snd (validate_tests re_other fs) = Return true
       /\ snd (validate_examples fs) = Return true
       /\ snd (validate_documentation fs) = Return true
       /\ snd (validate_integration fs) = Return true)
  /\ (exit_status re_other fs = 0%Z \/ exit_status re_other fs = 1%Z).
Proof.
  unfold exit_status. rewrite main_code.
  outcome_cases (snd (validate_rooted_tree re_other fs));
    outcome_cases (snd (validate_hypershell re_other fs));
    outcome_cases (snd (validate_rooted_hypershell re_other fs));
    outcome_cases (snd (validate_tests re_other fs));
    outcome_cases (snd (validate_examples fs));
    outcome_cases (snd (validate_documentation fs));
    outcome_cases (snd (validate_integration fs));
    (split; [split; [intros H; first [discriminate H | repeat split]
                    | intros H; decompose [and] H;
                      first [reflexivity | congruence] ]
            | auto]).
Qed.

(** C1: whenever the seven validators return their verdicts, [main]
    returns 0 if all of them are true and 1 otherwise, and that value is
    the exit status; the exit status is 0 exactly when all seven return
    true; turning one passing entry of an all-passing table into a failing
    one turns the result from 0 into 1. *)
Theorem exit_code_is_conjunction :
  forall re_other (fs : filesystem),
    (forall v1 v2 v3 v4 v5 v6 v7 : bool,
        snd (validate_rooted_tree re_other fs) = Return v1 ->
        snd (validate_hypershell re_other fs) = Return v2 ->
        snd (validate_rooted_hypershell re_other fs) = Return v3 ->
        snd (validate_tests re_other fs) = Return v4 ->
        snd (validate_examples fs) = Return v5 ->
        snd (validate_documentation fs) = Return v6 ->
        snd (validate_integration fs) = Return v7 ->
        let overall := v1 && v2 && v3 && v4 && v5 && v6 && v7 in
        snd (main re_other fs) = Return (if overall then 0 else 1)%Z
        /\ exit_status re_other fs = (if overall then 0 else 1)%Z)
    /\ (exit_status re_other fs = 0%Z
        <-> snd (validate_rooted_tree re_other fs) = Return true
            /\ snd (validate_hypershell re_other fs) = Return true
            /\ snd (validate_rooted_hypershell re_other fs) = Return true
            /\ snd (validate_tests re_other fs) = Return true
            /\ snd (validate_examples fs) = Return true
            /\ snd (validate_documentation fs) = Return true
            /\ snd (validate_integration fs) = Return true)
    /\ (exit_status re_other fs = 0%Z \/ exit_status re_other fs = 1%Z)
    /\ (forall results,
          snd (report results)
          = Return (if forallb snd results then 0 else 1)%Z)
    /\ (forall before component after,
          forallb snd (before ++ after)%list = true ->
          snd (report (before ++ (component, true) :: after)%list)
            = Return 0%Z
          /\ snd (report (before ++ (component, false) :: after)%list)
             = Return 1%Z).
Proof.
  intros re_other fs. split; [|split; [|split; [|split]]].
  - intros v1 v2 v3 v4 v5 v6 v7 H1 H2 H3 H4 H5 H6 H7 overall.
    unfold exit_status. rewrite main_code, H1, H2, H3, H4, H5, H6, H7.
    split; reflexivity.
  - apply exit_status_zero.
  - apply exit_status_zero.
  - apply report_code.
  - intros before component after H. rewrite !report_code.
    rewrite forallb_app in H. apply andb_true_iff in H as [Hb Ha].
    rewrite !forallb_app. simpl. rewrite Hb, Ha. split; reflexivity.
Qed.

Lemma exit_code_is_conjunction_witness :
  (snd (main re_rejects complete_tree) = Return 0%Z
   /\ exit_status re_rejects complete_tree = 0%Z)
  /\ (snd (report [ ("RootedTree", true); ("Hypershell", true) ])
        = Return 0%Z
      /\ snd (report [ ("RootedTree", true); ("Hypershell", false) ])
         = Return 1%Z).
Proof.
  split.
  - apply (proj1 (exit_code_is_conjunction re_rejects complete_tree)
             true true true true true true true);
      vm_compute; reflexivity.
  - apply (exit_code_is_conjunction re_rejects complete_tree)
      with (before := [("RootedTree", true)]) (after := []).
    reflexivity.
Defined.

(** ** Unreadable artifacts *)

Lemma name_line_not_summary found_label missing_label found name :
  found_label = "  ✓ Function: " ->
  missing_label = "  ✗ Function missing: " ->
  name_line found_label missing_label found name <> "Validation Summary".
Proof. intros -> ->. unfold name_line. now destruct found. Qed.

(** C3 fails on the code: when [rooted_tree.lua] is there but cannot be
    read, the exception of the unguarded read in [validate_rooted_tree]
    leaves [main], no summary is printed and the exit status is 1; the
    unguarded read of [init.lua] leaves [validate_integration] in the same
    way. *)
Theorem unreadable_artifact_aborts_main :
  forall re_other (fs : filesystem) (e : exn),
    (path_exists fs "rooted_tree.lua" = true ->
     read_text fs "rooted_tree.lua" = Raise e ->
     snd (main re_other fs) = Raise e
     /\ exit_status re_other fs = 1%Z
     /\ ~ In "Validation Summary" (fst (main re_other fs)))
    /\ (path_exists fs "init.lua" = true ->
        read_text fs "init.lua" = Raise e ->
        snd (validate_integration fs) = Raise e).
Proof.
  intros re_other fs e. split.
  - intros Hex Hread.
    assert (Hv : validate_rooted_tree re_other fs
                 = ((nl ++ "=== Validating RootedTree Module ===")
                    :: "✓ RootedTree module: rooted_tree.lua"
                    :: map (fun n =>
                              name_line "  ✓ Function: "
                                "  ✗ Function missing: "
                                (function_found re_other fs
                                   "rooted_tree.lua" n) n)
                         rooted_tree_functions,
                    Raise e)).
    { rewrite validate_rooted_tree_eq, Hex. cbv zeta. now rewrite Hread. }
    assert (Hmain : snd (main re_other fs) = Raise e).
    { rewrite main_code, Hv. reflexivity. }
    split; [exact Hmain | split].
    + unfold exit_status. now rewrite Hmain.
    + unfold main. rewrite !fst_bind. unfold print, fst at 1 2 3.
      unfold snd at 1 2 3. rewrite Hv. unfold fst at 1, snd at 1.
      rewrite app_nil_r. simpl.
      intros H.
      repeat (destruct H as [H|H];
              [ first [ discriminate H
                      | now apply name_line_not_summary in H ] | ]).
      exact H.
  - intros Hex Hread. now rewrite validate_integration_eq, Hex, Hread.
Qed.

Lemma unreadable_artifact_aborts_main_witness :
  let fs :=
    complete_tree_with "rooted_tree.lua" (RegularFile NoPermission) in
  (snd (main re_rejects fs) = Raise PermissionError
   /\ exit_status re_rejects fs = 1%Z
   /\ ~ In "Validation Summary" (fst (main re_rejects fs)))
  /\ snd (validate_integration
            (complete_tree_with "init.lua" (RegularFile Undecodable)))
     = Raise UnicodeDecodeError.
Proof.
  split.
  - apply (unreadable_artifact_aborts_main re_rejects
             (complete_tree_with "rooted_tree.lua"
                (RegularFile NoPermission)) PermissionError);
      reflexivity.
  - apply (unreadable_artifact_aborts_main re_rejects
             (complete_tree_with "init.lua" (RegularFile Undecodable))
             UnicodeDecodeError);
      reflexivity.
Defined.

(** ** Missing artifacts *)

Lemma path_exists_none fs path : fs path = None -> path_exists fs path = false.
Proof. unfold path_exists. now intros ->. Qed.

Lemma exit_status_one_of re_other fs :
  exit_status re_other fs <> 0%Z -> exit_status re_other fs = 1%Z.
Proof.
  destruct (exit_status_zero re_other fs) as [_ [H|H]]; congruence.
Qed.

(** C7, as amended: each of the six validators of [guarded_validators]
    prints its header and the NOT FOUND line, returns false at once and
    checks nothing else when its file is missing; the Documentation
    validator goes on to the README check when the architecture document
    is missing and does not return true; the exit status is 1 in both
    cases. *)
Theorem missing_artifact_short_circuits :
  forall re_other (fs : filesystem),
    (forall path description validator,
        In (path, description, validator) (guarded_validators re_other fs) ->
        fs path = None ->
        (exists header,
            validator
            = ([ header; "✗ " ++ description ++ " NOT FOUND: " ++ path ],
               Return false))
        /\ exit_status re_other fs = 1%Z)
    /\ (fs "doc/ROOTED_HYPERSHELL.md" = None ->
        validate_documentation fs
        = readme_part fs
            [ nl ++ "=== Validating Documentation ===";
              "✗ Architecture documentation NOT FOUND: doc/ROOTED_HYPERSHELL.md" ]
            false
        /\ snd (validate_documentation fs) <> Return true
        /\ exit_status re_other fs = 1%Z).
Proof.
  intros re_other fs. split.
  - intros path description validator Hin Hnone.
    apply path_exists_none in Hnone.
    assert (Hexit : snd validator = Return false ->
                    exit_status re_other fs = 1%Z).
    { intros Hv. apply exit_status_one_of. intros H0.
      apply exit_status_zero in H0
        as (H1 & H2 & H3 & H4 & H5 & H6 & H7).
      simpl in Hin.
      destruct Hin as [E|[E|[E|[E|[E|[E|[]]]]]]];
        injection E as _ _ <-; congruence. }
    simpl in Hin.
    destruct Hin as [E|[E|[E|[E|[E|[E|[]]]]]]];
      injection E as <- <- <-.
    + rewrite validate_rooted_tree_eq, Hnone in *. split; eauto.
    + rewrite validate_hypershell_eq, Hnone in *. split; eauto.
    + rewrite validate_rooted_hypershell_eq, Hnone in *. split; eauto.
    + rewrite validate_tests_eq, Hnone in *. split; eauto.
    + rewrite validate_examples_eq, Hnone in *. split; eauto.
    + rewrite validate_integration_eq, Hnone in *. split; eauto.
  - intros Hnone. apply path_exists_none in Hnone.
    assert (Hdoc : snd (validate_documentation fs) <> Return true).
    { rewrite validate_documentation_eq, Hnone. unfold readme_part.
      destruct (path_exists fs "README.md"); [|discriminate].
      destruct (read_text fs "README.md") as [readme|e]; [|discriminate].
      now destruct (readme_mentions readme). }
    split; [now rewrite validate_documentation_eq, Hnone | split; [exact Hdoc|]].
    apply exit_status_one_of. intros H0.
    apply exit_status_zero in H0 as (_ & _ & _ & _ & _ & H6 & _).
    contradiction.
Qed.

Lemma missing_artifact_short_circuits_witness :
  ((exists header,
       validate_rooted_tree re_rejects
         (complete_tree_without "rooted_tree.lua")
       = ([ header; "✗ RootedTree module NOT FOUND: rooted_tree.lua" ],
          Return false))
   /\ exit_status re_rejects (complete_tree_without "rooted_tree.lua")
      = 1%Z)
  /\ snd (validate_documentation
            (complete_tree_without "doc/ROOTED_HYPERSHELL.md"))
     <> Return true.
Proof.
  split.
  - apply (proj1 (missing_artifact_short_circuits re_rejects
                    (complete_tree_without "rooted_tree.lua"))
             "rooted_tree.lua" "RootedTree module").
    + left. reflexivity.
    + reflexivity.
  - apply (missing_artifact_short_circuits re_rejects
             (complete_tree_without "doc/ROOTED_HYPERSHELL.md")).
    reflexivity.
Defined.

(** C7, as stated, fails for the Documentation component: with the
    architecture document missing, the validator still evaluates and
    prints the README items before it returns false. *)
Lemma documentation_does_not_short_circuit :
  let fs := complete_tree_without "doc/ROOTED_HYPERSHELL.md" in
  fs "doc/ROOTED_HYPERSHELL.md" = None
  /\ validate_documentation fs
     = ([ nl ++ "=== Validating Documentation ===";
          "✗ Architecture documentation NOT FOUND: doc/ROOTED_HYPERSHELL.md";
          "✓ README: README.md";
          "  ✓ README mentions Rooted Hypershell" ],
        Return false).
Proof. vm_compute. auto. Qed.

(** ** Integration *)




(** ** Documentation *)

Lemma readme_part_verdict fs printed all_present :
  snd (readme_part fs printed all_present) = Return true
  <-> all_present = true
      /\ path_exists fs "README.md" = true
      /\ exists readme,
           read_text fs "README.md" = Return readme
           /\ readme_mentions readme = true.
Proof.
  unfold readme_part.
  destruct (path_exists fs "README.md").
  - destruct (read_text fs "README.md") as [readme|e].
    + destruct (readme_mentions readme) eqn:Hm; cbn [snd].
      * split.
        -- intros H. injection H as ->. eauto.
        -- now intros (-> & _).
      * split; [discriminate|].
        intros (_ & _ & r & Hr & Hr'). congruence.
    + cbn [snd]. split; [discriminate|].
      intros (_ & _ & r & Hr & _). discriminate.
  - cbn [snd]. split; [discriminate|]. intros (_ & H & _). discriminate.
Qed.

Lemma readme_part_printed fs printed printed' all_present :
  snd (readme_part fs printed all_present)
  = snd (readme_part fs printed' all_present).
Proof.
  unfold readme_part.
  destruct (path_exists fs "README.md"); [|reflexivity].
  destruct (read_text fs "README.md") as [readme|e]; [|reflexivity].
  now destruct (readme_mentions readme).
Qed.

(** X16: the part of the Documentation verdict that the code delivers.
    When the architecture document can be read, its text only adds
    confirmation lines and the verdict is the one of the README check,
    whatever the text; and when the architecture document is either
    missing or readable, the validator returns true exactly when the
    document is there, [README.md] is there, and the text of [README.md]
    contains [Rooted Hypershell] or [rooted hypershell]. *)
Theorem documentation_verdict :
  forall fs : filesystem,
    (forall doc_text,
        read_text fs "doc/ROOTED_HYPERSHELL.md" = Return doc_text ->
        validate_documentation fs
        = readme_part fs
            ((nl ++ "=== Validating Documentation ===")
             :: "✓ Architecture documentation: doc/ROOTED_HYPERSHELL.md"
             :: doc_lines doc_text)
            true)
    /\ (forall fs' doc_text doc_text',
          read_text fs "doc/ROOTED_HYPERSHELL.md" = Return doc_text ->
          read_text fs' "doc/ROOTED_HYPERSHELL.md" = Return doc_text' ->
          fs' "README.md" = fs "README.md" ->
          snd (validate_documentation fs') = snd (validate_documentation fs))
    /\ (fs "doc/ROOTED_HYPERSHELL.md" = None
        \/ (exists doc_text,
              read_text fs "doc/ROOTED_HYPERSHELL.md" = Return doc_text) ->
        (snd (validate_documentation fs) = Return true
         <-> path_exists fs "doc/ROOTED_HYPERSHELL.md" = true
             /\ path_exists fs "README.md" = true
             /\ exists readme,
                  read_text fs "README.md" = Return readme
                  /\ contains "Rooted Hypershell" readme
                     || contains "rooted hypershell" readme = true)).
Proof.
  intros fs. split; [|split].
  - intros doc_text Hread.
    now rewrite validate_documentation_eq, (read_text_exists _ _ _ Hread),
      Hread.
  - intros fs' doc_text doc_text' Hread Hread' Hsame.
    rewrite !validate_documentation_eq.
    rewrite (read_text_exists _ _ _ Hread), Hread.
    rewrite (read_text_exists _ _ _ Hread'), Hread'.
    rewrite (readme_part_printed fs' _ [] true).
    rewrite (readme_part_printed fs _ [] true).
    unfold readme_part, path_exists, read_text. now rewrite Hsame.
  - intros Hdoc. rewrite validate_documentation_eq.
    destruct Hdoc as [Hnone|[doc_text Hread]].
    + rewrite (path_exists_none _ _ Hnone), readme_part_verdict.
      split; [intros (H & _) | intros (H & _)]; discriminate.
    + rewrite (read_text_exists _ _ _ Hread), Hread, readme_part_verdict.
      unfold readme_mentions. tauto.
Qed.

Lemma documentation_verdict_witness :
  validate_documentation complete_tree
  = readme_part complete_tree
      [ nl ++ "=== Validating Documentation ===";
        "✓ Architecture documentation: doc/ROOTED_HYPERSHELL.md" ]
      true
  /\ snd (validate_documentation
            (complete_tree_with "doc/ROOTED_HYPERSHELL.md"
               (RegularFile (Text ""))))
     = snd (validate_documentation complete_tree)
  /\ (snd (validate_documentation complete_tree) = Return true
      <-> path_exists complete_tree "doc/ROOTED_HYPERSHELL.md" = true
          /\ path_exists complete_tree "README.md" = true
          /\ exists readme,
               read_text complete_tree "README.md" = Return readme
               /\ contains "Rooted Hypershell" readme
                  || contains "rooted hypershell" readme = true).
Proof.
  split; [|split].
  - apply (proj1 (documentation_verdict complete_tree) "Design notes").
    reflexivity.
  - apply (proj1 (proj2 (documentation_verdict complete_tree)))
      with (doc_text := "Design notes") (doc_text' := "");
      reflexivity.
  - apply (documentation_verdict complete_tree).
    right. exists "Design notes". reflexivity.
Defined.

(** C10: the code misses the claim on an architecture document that is
    there but cannot be read.  The document exists, [README.md] exists and
    mentions the architecture, so the claim gives the verdict true; the
    validator prints its header and the line that reports the document
    as found, then the read of the document, which no [try] guards,
    raises: no verdict is returned and [README.md] is never looked at.
    [check_function_exists] and [check_class_exists] guard the same read. *)
Lemma documentation_unreadable_document :
  let fs :=
    complete_tree_with "doc/ROOTED_HYPERSHELL.md"
      (RegularFile NoPermission) in
  path_exists fs "doc/ROOTED_HYPERSHELL.md" = true
  /\ path_exists fs "README.md" = true
  /\ (exists readme,
        read_text fs "README.md" = Return readme
        /\ contains "Rooted Hypershell" readme = true)
  /\ snd (validate_documentation fs) = Raise PermissionError
  /\ fst (validate_documentation fs)
     = [ nl ++ "=== Validating Documentation ===";
         "✓ Architecture documentation: doc/ROOTED_HYPERSHELL.md" ].
Proof.
  vm_compute. repeat split. eexists; split; reflexivity.
Qed.

(** ** Items inside a component *)

(** C2, as amended: the name loops of RootedTree, Hypershell,
    RootedHypershell and Tests, the substring loop of Examples and the
    module loop of Integration print one line for every item, whatever
    the results of the other items, and the verdict is the conjunction of
    the item results (together with the A000081 marker for RootedTree).
    The class check of RootedHypershell is different: a miss returns false
    at once and no method is checked.  The three substring checks on the
    architecture document are different too: they never change the
    verdict of Documentation. *)
Theorem items_do_not_short_circuit :
  forall re_other (fs : filesystem),
    let found := function_found re_other fs in
    (forall filepath found_label missing_label names,
        check_names re_other fs filepath found_label missing_label names
        = (map (fun n => name_line found_label missing_label
                           (found filepath n) n) names,
           Return (forallb (found filepath) names)))
    /\ (forall content,
          read_text fs "rooted_tree.lua" = Return content ->
          fst (validate_rooted_tree re_other fs)
          = ((nl ++ "=== Validating RootedTree Module ===")%string
             :: "✓ RootedTree module: rooted_tree.lua"
             :: map (fun n => name_line "  ✓ Function: "
                                "  ✗ Function missing: "
                                (found "rooted_tree.lua" n) n)
                  rooted_tree_functions
             ++ [ if contains "A000081" content
                     || contains "a000081" content
                  then "  ✓ A000081 sequence implementation present"
                  else "  ✗ A000081 sequence implementation missing" ])%list
          /\ snd (validate_rooted_tree re_other fs)
             = Return (forallb (found "rooted_tree.lua")
                         rooted_tree_functions
                       && (contains "A000081" content
                           || contains "a000081" content)))
    /\ (path_exists fs "hypershell.lua" = true ->
        validate_hypershell re_other fs
        = ((nl ++ "=== Validating Hypershell Module ===")
           :: "✓ Hypershell module: hypershell.lua"
           :: map (fun n => name_line "  ✓ Function: "
                              "  ✗ Function missing: "
                              (found "hypershell.lua" n) n)
                hypershell_functions,
           Return (forallb (found "hypershell.lua") hypershell_functions)))
    /\ (path_exists fs "test/test_rooted_hypershell.lua" = true ->
        validate_tests re_other fs
        = ((nl ++ "=== Validating Test Suite ===")
           :: "✓ Test suite: test/test_rooted_hypershell.lua"
           :: map (fun n => name_line "  ✓ Test: " "  ✗ Test missing: "
                              (found "test/test_rooted_hypershell.lua" n) n)
                test_names,
           Return (forallb (found "test/test_rooted_hypershell.lua")
                     test_names)))
    /\ (forall content,
          read_text fs "examples/rooted_hypershell_example.lua"
            = Return content ->
          validate_examples fs
          = ((nl ++ "=== Validating Examples ===")
             :: "✓ Example file: examples/rooted_hypershell_example.lua"
             :: map (example_line content) example_checks,
             Return (forallb (fun check => contains (fst check) content)
                       example_checks)))
    /\ (forall content,
          read_text fs "init.lua" = Return content ->
          validate_integration fs
          = ((nl ++ "=== Validating Integration ===")
             :: "✓ init.lua: init.lua"
             :: map (module_line content) integration_modules,
             Return (forallb (module_required content) integration_modules)))
    /\ (path_exists fs "rooted_hypershell.lua" = true ->
        class_found fs "rooted_hypershell.lua" "RootedHypershell" = true ->
        validate_rooted_hypershell re_other fs
        = ((nl ++ "=== Validating RootedHypershell Module ===")
           :: "✓ RootedHypershell module: rooted_hypershell.lua"
           :: "  ✓ Class: nn.RootedHypershell"
           :: map (fun n => name_line "  ✓ Method: " "  ✗ Method missing: "
                              (found "rooted_hypershell.lua" n) n)
                rooted_hypershell_methods,
           Return (forallb (found "rooted_hypershell.lua")
                     rooted_hypershell_methods)))
    /\ (path_exists fs "rooted_hypershell.lua" = true ->
        class_found fs "rooted_hypershell.lua" "RootedHypershell" = false ->
        validate_rooted_hypershell re_other fs
        = ([ nl ++ "=== Validating RootedHypershell Module ===";
             "✓ RootedHypershell module: rooted_hypershell.lua";
             "  ✗ Class definition missing" ],
           Return false))
    /\ (forall doc_text,
          read_text fs "doc/ROOTED_HYPERSHELL.md" = Return doc_text ->
          validate_documentation fs
          = readme_part fs
              ((nl ++ "=== Validating Documentation ===")
               :: "✓ Architecture documentation: doc/ROOTED_HYPERSHELL.md"
               :: doc_lines doc_text)
              true
          /\ snd (validate_documentation fs)
             = snd (readme_part fs [] true)).
Proof.
  intros re_other fs found. subst found.
  split; [|split; [|split; [|split; [|split; [|split; [|split; [|split]]]]]]].
  - intros. apply check_names_eq.
  - intros content Hread.
    rewrite validate_rooted_tree_eq, (read_text_exists _ _ _ Hread), Hread.
    cbv zeta.
    destruct (contains "A000081" content || contains "a000081" content);
      cbn [fst snd].
    + now rewrite andb_true_r.
    + now rewrite andb_false_r.
  - intros Hex. now rewrite validate_hypershell_eq, Hex.
  - intros Hex. now rewrite validate_tests_eq, Hex.
  - intros content Hread.
    now rewrite validate_examples_eq, (read_text_exists _ _ _ Hread), Hread.
  - intros content Hread.
    now rewrite validate_integration_eq, (read_text_exists _ _ _ Hread),
      Hread.
  - intros Hex Hclass. now rewrite validate_rooted_hypershell_eq, Hex, Hclass.
  - intros Hex Hclass. now rewrite validate_rooted_hypershell_eq, Hex, Hclass.
  - intros doc_text Hread.
    rewrite validate_documentation_eq, (read_text_exists _ _ _ Hread), Hread.
    split; [reflexivity | apply readme_part_printed].
Qed.

Lemma items_do_not_short_circuit_witness :
  let fs := complete_tree in
  let bare :=
    complete_tree_with "rooted_hypershell.lua"
      (RegularFile (Text (lua_definitions rooted_hypershell_methods))) in
  snd (validate_rooted_tree re_rejects fs) = Return true
  /\ snd (validate_hypershell re_rejects fs) = Return true
  /\ snd (validate_tests re_rejects fs) = Return true
  /\ snd (validate_examples fs) = Return true
  /\ snd (validate_integration fs) = Return true
  /\ snd (validate_rooted_hypershell re_rejects fs) = Return true
  /\ validate_rooted_hypershell re_rejects bare
     = ([ nl ++ "=== Validating RootedHypershell Module ===";
          "✓ RootedHypershell module: rooted_hypershell.lua";
          "  ✗ Class definition missing" ],
        Return false)
  /\ snd (validate_documentation fs) = snd (readme_part fs [] true).
Proof.
  intros fs bare.
  destruct (items_do_not_short_circuit re_rejects fs)
    as (_ & H2 & H3 & H4 & H5 & H6 & H7 & _ & H9).
  destruct (items_do_not_short_circuit re_rejects bare)
    as (_ & _ & _ & _ & _ & _ & _ & H8 & _).
  split; [|split; [|split; [|split; [|split; [|split; [|split]]]]]].
  - rewrite (proj2 (H2 _ eq_refl)). vm_compute. reflexivity.
  - rewrite (H3 eq_refl). vm_compute. reflexivity.
  - rewrite (H4 eq_refl). vm_compute. reflexivity.
  - rewrite (H5 _ eq_refl). vm_compute. reflexivity.
  - rewrite (H6 _ eq_refl). vm_compute. reflexivity.
  - rewrite (H7 eq_refl eq_refl). vm_compute. reflexivity.
  - exact (H8 eq_refl eq_refl).
  - exact (proj2 (H9 _ eq_refl)).
Defined.

(** C2, as stated, fails on both of its particular cases: a missed class
    definition ends [validate_rooted_hypershell] before any of the six
    methods, all present in the file, is looked at; and an architecture
    document in which all three substrings are missing leaves the verdict
    of [validate_documentation] true. *)
Lemma class_check_short_circuits :
  let methods_only := lua_definitions rooted_hypershell_methods in
  let bare :=
    complete_tree_with "rooted_hypershell.lua"
      (RegularFile (Text methods_only)) in
  let blank :=
    complete_tree_with "doc/ROOTED_HYPERSHELL.md" (RegularFile (Text "")) in
  (forallb (function_found re_rejects bare "rooted_hypershell.lua")
     rooted_hypershell_methods = true
   /\ validate_rooted_hypershell re_rejects bare
      = ([ nl ++ "=== Validating RootedHypershell Module ===";
           "✓ RootedHypershell module: rooted_hypershell.lua";
           "  ✗ Class definition missing" ],
         Return false))
  /\ (contains "A000081" "" = false
      /\ contains "Hypershell" "" = false
      /\ contains "RootedTree" "" = false
      /\ snd (validate_documentation blank) = Return true).
Proof. vm_compute. repeat split. Qed.

(** ** The scenarios of the specification, run through the whole script *)

(** Every artifact present and complete: exit status 0. *)
Example scenario_complete_tree :
  snd (script re_rejects (Some complete_tree)) = 0%Z.
Proof. vm_compute. reflexivity. Qed.

(** The composite artifact lacks the class marker: that component fails,
    the six others pass, exit status 1. *)
Example scenario_class_marker_missing :
  let fs :=
    complete_tree_with "rooted_hypershell.lua"
      (RegularFile (Text (lua_definitions rooted_hypershell_methods))) in
  snd (script re_rejects (Some fs)) = 1%Z
  /\ filter (String.prefix "RootedHypershell ")
       (fst (script re_rejects (Some fs)))
     = [ "RootedHypershell    : ✗ FAIL" ]
  /\ length (filter (fun line => contains ": ✓ PASS" line)
               (fst (script re_rejects (Some fs)))) = 6.
Proof. vm_compute. repeat split. Qed.

(** The tree-structure artifact is absent: exit status 1. *)
Example scenario_tree_artifact_absent :
  snd (script re_rejects (Some (complete_tree_without "rooted_tree.lua")))
  = 1%Z.
Proof. vm_compute. reflexivity. Qed.

(** The working directory cannot be entered: nothing is printed, exit
    status 1. *)
Example scenario_no_working_directory :
  forall re_other, script re_other None = ([], 1%Z).
Proof. reflexivity. Qed.

(** * Further properties *)

(** ** What a plain name must look like in the text *)

Lemma parse_frame_eta p stack f rep :
  parse p stack (mk_frame (branches f) (items f)) rep = parse p stack f rep.
Proof. now destruct f. Qed.

Lemma parse_plain_any n rest stack f rep :
  is_plain n = true ->
  parse (n ++ rest) stack f rep
  = parse rest stack (mk_frame (branches f) (plain_items n ++ items f))
      (match n with EmptyString => rep | String _ _ => false end).
Proof.
  intros P. destruct n as [|c n].
  - symmetry. apply parse_frame_eta.
  - now apply parse_plain.
Qed.

Lemma parse_plain_any_end n f rep :
  is_plain n = true ->
  parse n [] f rep
  = Compiled (close_frame (mk_frame (branches f) (plain_items n ++ items f))).
Proof.
  intros P. rewrite <- (append_nil_r n) at 1.
  now rewrite parse_plain_any.
Qed.

(** A branch read left to right. *)
Lemma seq_of_rev (its : list regex) :
  seq_of its = fold_right Seq Eps (rev its).
Proof. unfold seq_of. now rewrite fold_left_rev_right. Qed.

Lemma seq_of_plain (n : string) (its : list regex) :
  seq_of (plain_items n ++ its)
  = fold_right Seq Eps (rev its ++ map Chr (list_ascii_of_string n)).
Proof.
  rewrite seq_of_rev, rev_app_distr. unfold plain_items.
  now rewrite rev_involutive.
Qed.

Lemma matches_eps (m : string) : matches Eps m <-> m = "".
Proof. split; [now inversion 1 | intros ->; constructor]. Qed.

Lemma matches_chr_then (c : ascii) (r : regex) (m : string) :
  matches (Seq (Chr c) r) m <-> exists m', m = String c m' /\ matches r m'.
Proof.
  split.
  - inversion 1 as [| | |r1 r2 s1 s2 Hc Hr| | | |]; subst.
    inversion Hc; subst. now exists s2.
  - intros (m' & -> & H). change (String c m') with (String c "" ++ m').
    constructor; [constructor | exact H].
Qed.

(** A literal string in front of a sequence. *)
Lemma matches_lit_then (s : string) (l : list regex) (m : string) :
  matches (fold_right Seq Eps (map Chr (list_ascii_of_string s) ++ l)) m
  <-> exists m', m = s ++ m' /\ matches (fold_right Seq Eps l) m'.
Proof.
  revert m. induction s as [|c s IH]; intros m; simpl.
  - split; [intros H; now exists m | now intros (m' & -> & H)].
  - rewrite matches_chr_then. split.
    + intros (m1 & -> & H). apply IH in H as (m' & -> & H). now exists m'.
    + intros (m' & -> & H). exists (s ++ m'). split; [reflexivity|].
      apply IH. now exists m'.
Qed.

Lemma prefix_char (a c : ascii) (s : string) :
  String.prefix (String a "") (String c s) = (a =? c)%char.
Proof.
  change (String.prefix (String a "") (String c s))
    with (if ascii_dec a c then String.prefix "" s else false).
  destruct (ascii_dec a c) as [->|ne].
  - rewrite Ascii.eqb_refl. now destruct s.
  - symmetry. now apply Ascii.eqb_neq.
Qed.

Lemma one_line_cons (c : ascii) (s : string) :
  one_line (String c s) = negb (c =? "010")%char && one_line s.
Proof.
  unfold one_line, nl. rewrite contains_cons, prefix_char, negb_orb.
  now rewrite Ascii.eqb_sym.
Qed.

Lemma one_line_app (a b : string) :
  one_line (a ++ b) = one_line a && one_line b.
Proof.
  induction a as [|c a IH]; [reflexivity|].
  change (String c a ++ b) with (String c (a ++ b)).
  now rewrite !one_line_cons, IH, andb_assoc.
Qed.

(** [.*] matches exactly the texts without a line feed. *)
Lemma matches_star_dot (m : string) :
  matches (Star Dot) m <-> one_line m = true.
Proof.
  split.
  - intros H. remember (Star Dot) as r eqn:E.
    induction H as [| | | | | | |r s1 s2 H1 _ H2 IH2]; try discriminate.
    + reflexivity.
    + injection E as ->. inversion H1 as [| |c ne| | | | |]; subst.
      change (String c "" ++ s2) with (String c s2).
      rewrite one_line_cons, (IH2 eq_refl), andb_true_r.
      now destruct (Ascii.eqb_spec c "010"%char).
  - induction m as [|c m IH]; intros H; [constructor|].
    rewrite one_line_cons in H. apply andb_true_iff in H as [Hc Hm].
    change (String c m) with (String c "" ++ m).
    constructor; [|now apply IH]. constructor.
    intros ->. discriminate.
Qed.

Lemma matches_star_dot_then (l : list regex) (m : string) :
  matches (fold_right Seq Eps (Star Dot :: l)) m
  <-> exists between m',
        m = between ++ m' /\ one_line between = true
        /\ matches (fold_right Seq Eps l) m'.
Proof.
  simpl. split.
  - inversion 1 as [| | |r1 r2 s1 s2 Hs Hr| | | |]; subst.
    exists s1, s2. now rewrite <- matches_star_dot.
  - intros (b & m' & -> & Hb & H). constructor; [|exact H].
    now apply matches_star_dot.
Qed.

Lemma matches_lit (s m : string) :
  matches (fold_right Seq Eps (map Chr (list_ascii_of_string s))) m
  <-> m = s.
Proof.
  rewrite <- (app_nil_r (map Chr (list_ascii_of_string s))).
  rewrite matches_lit_then. simpl. split.
  - intros (m' & -> & H). apply matches_eps in H as ->.
    apply append_nil_r.
  - intros ->. exists "". split; [now rewrite append_nil_r | constructor].
Qed.

Lemma compile_plain_patterns (n : string) :
  is_plain n = true ->
  map re_compile (function_patterns n)
  = map Compiled (plain_pattern_regexes n).
Proof.
  intros P. unfold function_patterns, plain_pattern_regexes, re_compile.
  cbn [map]. repeat f_equal.
  - simpl. rewrite parse_plain_any_end by assumption.
    unfold close_frame. cbn [branches items fold_left].
    now rewrite seq_of_plain.
  - simpl. rewrite parse_plain_any_end by assumption.
    unfold close_frame. cbn [branches items fold_left].
    now rewrite seq_of_plain.
  - simpl. rewrite parse_plain_any_end by assumption.
    unfold close_frame. cbn [branches items fold_left].
    now rewrite seq_of_plain.
  - simpl. rewrite parse_plain_any_end by assumption.
    unfold close_frame. cbn [branches items fold_left].
    now rewrite seq_of_plain.
  - rewrite parse_plain_any by assumption. simpl.
    unfold close_frame. cbn [branches items fold_left].
    rewrite seq_of_rev. f_equal. simpl.
    rewrite !rev_app_distr. unfold plain_items.
    rewrite rev_involutive. cbn [rev]. now rewrite <- !app_assoc.
  - simpl. rewrite parse_plain_any_end by assumption.
    unfold close_frame. cbn [branches items fold_left].
    now rewrite seq_of_plain.
Qed.

Lemma search_patterns_compiled re_other content :
  forall patterns regexes,
    map re_compile patterns = map Compiled regexes ->
    search_patterns re_other patterns content
    = Return (existsb (fun r => search r content) regexes).
Proof.
  induction patterns as [|p ps IH]; intros [|r rs] H; try discriminate.
  - reflexivity.
  - injection H as Hp Hps. simpl.
    rewrite (re_search_compiled _ _ _ _ Hp).
    destruct (search r content); [reflexivity|]. now apply IH.
Qed.

(** Equal texts up to the bracketing of [++]. *)
Ltac same_text :=
  rewrite ?append_assoc; simpl; rewrite ?append_assoc; reflexivity.

Lemma plain_pattern_found (n content : string) :
  existsb (fun r => search r content) (plain_pattern_regexes n) = true
  <-> defines_function n content.
Proof.
  unfold defines_function. rewrite existsb_exists. split.
  - intros (r & Hin & Hs).
    apply search_sound in Hs as (b & m & a & -> & Hm).
    unfold plain_pattern_regexes in Hin. cbn [map In] in Hin.
    destruct Hin as [<-|[<-|[<-|[<-|[<-|[<-|[]]]]]]].
    + apply matches_lit_then in Hm as (m1 & -> & Hm).
      apply matches_lit in Hm as ->.
      left. exists b, " ", a. split; [|reflexivity].
      same_text.
    + apply matches_lit_then in Hm as (m1 & -> & Hm).
      apply matches_star_dot_then in Hm as (bt & m2 & -> & Hbt & Hm).
      apply matches_lit in Hm as ->.
      left. exists b, bt, a. split; [|exact Hbt].
      same_text.
    + apply matches_lit_then in Hm as (m1 & -> & Hm).
      apply matches_lit in Hm as ->.
      left. exists (b ++ "local "), " ", a. split; [|reflexivity].
      same_text.
    + apply matches_lit_then in Hm as (m1 & -> & Hm).
      apply matches_star_dot_then in Hm as (bt & m2 & -> & Hbt & Hm).
      cbn [fold_right] in Hm.
      apply matches_chr_then in Hm as (m3 & -> & Hm).
      apply matches_lit in Hm as ->.
      left. exists b, (bt ++ ":"), a. split.
      * same_text.
      * rewrite one_line_app, Hbt. reflexivity.
    + apply matches_lit_then in Hm as (m1 & -> & Hm).
      apply matches_lit in Hm as ->.
      right. apply contains_spec. now exists b, a.
    + apply matches_lit_then in Hm as (m1 & -> & Hm).
      apply matches_star_dot_then in Hm as (bt & m2 & -> & Hbt & Hm).
      cbn [fold_right] in Hm.
      apply matches_chr_then in Hm as (m3 & -> & Hm).
      apply matches_lit in Hm as ->.
      left. exists b, (bt ++ "."), a. split.
      * same_text.
      * rewrite one_line_app, Hbt. reflexivity.
  - intros [(b & bt & a & -> & Hbt)|Hc].
    + eexists. split.
      * unfold plain_pattern_regexes. cbn [map In]. right. left. reflexivity.
      * replace (b ++ "function" ++ bt ++ n ++ a)
          with (b ++ ("function" ++ bt ++ n) ++ a)
          by same_text.
        apply search_complete. apply matches_lit_then.
        exists (bt ++ n). split; [reflexivity|].
        apply matches_star_dot_then. exists bt, n.
        split; [reflexivity | split; [exact Hbt | now apply matches_lit]].
    + apply contains_spec in Hc as (b & a & ->).
      eexists. split.
      * unfold plain_pattern_regexes. cbn [map In].
        right. right. right. right. left. reflexivity.
      * apply search_complete. apply matches_lit_then.
        exists " = function". split; [reflexivity | now apply matches_lit].
Qed.

(** For a plain name and a readable file, the answer of the function
    check is the shape [defines_function]. *)
Lemma plain_name_found re_other fs filepath name content :
  is_plain name = true ->
  read_text fs filepath = Return content ->
  (function_found re_other fs filepath name = true
   <-> defines_function name content).
Proof.
  intros P Hread. unfold function_found.
  rewrite check_function_exists_eq, Hread.
  rewrite (search_patterns_compiled _ _ _ _ (compile_plain_patterns _ P)).
  cbn [snd]. apply plain_pattern_found.
Qed.

(** X1: for a name without pattern metacharacters and a readable file,
    [check_function_exists] answers true exactly when the text holds the
    word [function] and, later on the same line, the name, or holds the
    name followed by [ = function]. *)
Theorem check_function_exists_plain_shape :
  forall re_other (fs : filesystem) (filepath name content : string),
    is_plain name = true ->
    read_text fs filepath = Return content ->
    (snd (check_function_exists re_other fs filepath name) = Return true
     <-> defines_function name content).
Proof.
  intros re_other fs filepath name content P Hread.
  rewrite function_found_eq. cbn [snd].
  rewrite <- (plain_name_found re_other fs filepath name content P Hread).
  split; congruence.
Qed.

Lemma check_function_exists_plain_shape_witness :
  defines_function "addChild" "function RootedTree:addChild(node) end".
Proof.
  apply (check_function_exists_plain_shape re_rejects
           (tree_of [ text_file "rooted_tree.lua"
                        "function RootedTree:addChild(node) end" ])
           "rooted_tree.lua" "addChild"
           "function RootedTree:addChild(node) end");
    reflexivity.
Defined.

(** ** Checks that other checks imply *)

Lemma contains_trans (a b c : string) :
  contains a b = true -> contains b c = true -> contains a c = true.
Proof.
  rewrite !contains_spec. intros (p & q & ->) (p' & q' & ->).
  exists (p' ++ p), (q ++ q'). same_text.
Qed.

Lemma defines_function_contains (name content : string) :
  defines_function name content -> contains name content = true.
Proof.
  intros [(b & bt & a & -> & _)|H].
  - apply contains_spec. exists (b ++ "function" ++ bt), a. same_text.
  - apply (contains_trans _ (name ++ " = function")); [|exact H].
    apply contains_spec. exists "", " = function". reflexivity.
Qed.

(** For a plain name, a positive answer means the name occurs in the
    file. *)
Lemma function_found_contains re_other fs filepath name content :
  is_plain name = true ->
  read_text fs filepath = Return content ->
  function_found re_other fs filepath name = true ->
  contains name content = true.
Proof.
  intros P Hread Hfound. apply defines_function_contains.
  now apply (plain_name_found re_other fs filepath name content P Hread).
Qed.

Lemma function_line_not_marker found name :
  name_line "  ✓ Function: " "  ✗ Function missing: " found name
  <> "  ✗ A000081 sequence implementation missing".
Proof. unfold name_line. now destruct found. Qed.

Lemma marker_line_not_printed re_other fs :
  ~ In "  ✗ A000081 sequence implementation missing"
      ((nl ++ "=== Validating RootedTree Module ===")
       :: "✓ RootedTree module: rooted_tree.lua"
       :: map (fun n => name_line "  ✓ Function: " "  ✗ Function missing: "
                          (function_found re_other fs "rooted_tree.lua" n)
                          n)
            rooted_tree_functions).
Proof.
  intros [H|[H|H]]; [discriminate H | discriminate H |].
  apply in_map_iff in H as (n & H & _).
  now apply function_line_not_marker in H.
Qed.

(** X2: in [validate_rooted_tree] the A000081 marker check never decides:
    a file in which [getA000081Sequence] is found holds the marker, so the
    verdict is the conjunction of the eight function checks alone, and a
    missing marker is always accompanied by that missing function. *)
Theorem rooted_tree_marker_is_implied :
  forall re_other (fs : filesystem) (content : string),
    read_text fs "rooted_tree.lua" = Return content ->
    (function_found re_other fs "rooted_tree.lua" "getA000081Sequence"
       = true ->
     contains "A000081" content = true)
    /\ snd (validate_rooted_tree re_other fs)
       = Return (forallb (function_found re_other fs "rooted_tree.lua")
                   rooted_tree_functions)
    /\ (In "  ✗ A000081 sequence implementation missing"
          (fst (validate_rooted_tree re_other fs)) ->
        In "  ✗ Function missing: getA000081Sequence"
          (fst (validate_rooted_tree re_other fs))).
Proof.
  intros re_other fs content Hread.
  assert (Himpl :
    function_found re_other fs "rooted_tree.lua" "getA000081Sequence" = true
    -> contains "A000081" content = true).
  { intros Hf.
    apply (contains_trans _ "getA000081Sequence"); [reflexivity|].
    apply (function_found_contains re_other fs "rooted_tree.lua");
      [reflexivity | exact Hread | exact Hf]. }
  split; [exact Himpl|].
  rewrite validate_rooted_tree_eq, (read_text_exists _ _ _ Hread), Hread.
  cbv zeta.
  destruct (contains "A000081" content) eqn:Hmark; cbn [orb fst snd].
  - split; [reflexivity|]. intros Hin. exfalso.
    apply in_app_or in Hin as [Hin|[Hin|[]]]; [|discriminate Hin].
    exact (marker_line_not_printed _ _ Hin).
  - assert (Hf :
      function_found re_other fs "rooted_tree.lua" "getA000081Sequence"
      = false).
    { destruct (function_found re_other fs "rooted_tree.lua"
                  "getA000081Sequence"); [|reflexivity].
      now specialize (Himpl eq_refl). }
    assert (Hall :
      forallb (function_found re_other fs "rooted_tree.lua")
        rooted_tree_functions = false).
    { unfold rooted_tree_functions. cbn [forallb]. rewrite Hf.
      now rewrite !andb_false_r. }
    destruct (contains "a000081" content); cbn [fst snd].
    + rewrite Hall. split; [reflexivity|]. intros Hin. exfalso.
      apply in_app_or in Hin as [Hin|[Hin|[]]]; [|discriminate Hin].
      exact (marker_line_not_printed _ _ Hin).
    + rewrite Hall. split; [reflexivity|]. intros _.
      apply in_or_app. left. do 2 apply in_cons.
      apply in_map_iff. exists "getA000081Sequence". split.
      * unfold name_line. now rewrite Hf.
      * unfold rooted_tree_functions. cbn [In]. tauto.
Qed.

Lemma rooted_tree_marker_is_implied_witness :
  snd (validate_rooted_tree re_rejects complete_tree)
  = Return (forallb (function_found re_rejects complete_tree
                       "rooted_tree.lua") rooted_tree_functions).
Proof.
  exact (proj1 (proj2 (rooted_tree_marker_is_implied re_rejects
                         complete_tree
                         ("-- OEIS A000081" ++ nl
                          ++ lua_definitions rooted_tree_functions)
                         eq_refl))).
Defined.

(** X3: in [validate_examples] the check for [Hypershell] never decides,
    because [RootedHypershell] holds it: the verdict is true exactly when
    the text holds [RootedTree], [RootedHypershell], [A000081] and
    [spreadAttention]. *)
Theorem examples_hypershell_is_implied :
  forall (fs : filesystem) (content : string),
    read_text fs "examples/rooted_hypershell_example.lua" = Return content ->
    (contains "RootedHypershell" content = true ->
     contains "Hypershell" content = true)
    /\ (snd (validate_examples fs) = Return true
        <-> contains "RootedTree" content = true
            /\ contains "RootedHypershell" content = true
            /\ contains "A000081" content = true
            /\ contains "spreadAttention" content = true).
Proof.
  intros fs content Hread.
  assert (Himpl : contains "RootedHypershell" content = true ->
                  contains "Hypershell" content = true).
  { apply contains_trans. reflexivity. }
  split; [exact Himpl|].
  rewrite validate_examples_eq, (read_text_exists _ _ _ Hread), Hread.
  cbn [snd]. unfold example_checks. cbn [forallb fst].
  destruct (contains "RootedTree" content),
    (contains "RootedHypershell" content) eqn:H2,
    (contains "A000081" content),
    (contains "spreadAttention" content);
    try rewrite (Himpl eq_refl); cbn [andb];
    split; try tauto; try discriminate;
    try (intros (? & ? & ? & ?); discriminate).
  all: destruct (contains "Hypershell" content); discriminate.
Qed.

Lemma examples_hypershell_is_implied_witness :
  snd (validate_examples complete_tree) = Return true.
Proof.
  apply (proj2 (examples_hypershell_is_implied complete_tree
                  "RootedTree, RootedHypershell, A000081, spreadAttention"
                  eq_refl)).
  repeat split.
Defined.

(** ** Validators that cannot raise *)

Lemma function_found_unreadable re_other fs filepath name e :
  read_text fs filepath = Raise e ->
  function_found re_other fs filepath name = false.
Proof.
  intros H. unfold function_found.
  now rewrite check_function_exists_eq, H.
Qed.

Lemma class_found_unreadable fs filepath name e :
  read_text fs filepath = Raise e -> class_found fs filepath name = false.
Proof.
  intros H. unfold class_found. now rewrite check_class_exists_eq, H.
Qed.

Lemma name_lines_unreadable re_other fs filepath e found_label missing_label
  names :
  read_text fs filepath = Raise e ->
  map (fun n => name_line found_label missing_label
                  (function_found re_other fs filepath n) n) names
  = map (fun n => missing_label ++ n) names
  /\ forallb (function_found re_other fs filepath) names
     = match names with [] => true | _ :: _ => false end.
Proof.
  intros H. split.
  - apply map_ext. intros n. unfold name_line.
    now rewrite (function_found_unreadable _ _ _ _ _ H).
  - destruct names as [|n names]; [reflexivity|]. cbn [forallb].
    now rewrite (function_found_unreadable _ _ _ _ _ H).
Qed.

(** The three validators that read only through the guarded checks
    return on every tree. *)
Lemma guarded_validators_return re_other fs :
  (exists b, snd (validate_hypershell re_other fs) = Return b)
  /\ (exists b, snd (validate_tests re_other fs) = Return b)
  /\ (exists b, snd (validate_rooted_hypershell re_other fs) = Return b).
Proof.
  rewrite validate_hypershell_eq, validate_tests_eq,
    validate_rooted_hypershell_eq.
  destruct (path_exists fs "hypershell.lua"),
    (path_exists fs "test/test_rooted_hypershell.lua"),
    (path_exists fs "rooted_hypershell.lua");
    try destruct (class_found fs "rooted_hypershell.lua"
                    "RootedHypershell");
    cbn [snd]; repeat split; eexists; reflexivity.
Qed.

(** X4: [validate_hypershell], [validate_tests] and
    [validate_rooted_hypershell] read their file only through the two
    guarded checks, so they return a verdict on every tree; a file that is
    there but cannot be read is reported as found, and then every function
    (or the class definition) is reported missing and the verdict is
    false. *)
Theorem guarded_validators_never_raise :
  forall re_other (fs : filesystem),
    ((exists b, snd (validate_hypershell re_other fs) = Return b)
     /\ (exists b, snd (validate_tests re_other fs) = Return b)
     /\ (exists b, snd (validate_rooted_hypershell re_other fs) = Return b))
    /\ (forall e,
          path_exists fs "hypershell.lua" = true ->
          read_text fs "hypershell.lua" = Raise e ->
          validate_hypershell re_other fs
          = ((nl ++ "=== Validating Hypershell Module ===")
             :: "✓ Hypershell module: hypershell.lua"
             :: map (fun n => "  ✗ Function missing: " ++ n)
                  hypershell_functions,
             Return false))
    /\ (forall e,
          path_exists fs "test/test_rooted_hypershell.lua" = true ->
          read_text fs "test/test_rooted_hypershell.lua" = Raise e ->
          validate_tests re_other fs
          = ((nl ++ "=== Validating Test Suite ===")
             :: "✓ Test suite: test/test_rooted_hypershell.lua"
             :: map (fun n => "  ✗ Test missing: " ++ n) test_names,
             Return false))
    /\ (forall e,
          path_exists fs "rooted_hypershell.lua" = true ->
          read_text fs "rooted_hypershell.lua" = Raise e ->
          validate_rooted_hypershell re_other fs
          = ([ nl ++ "=== Validating RootedHypershell Module ===";
               "✓ RootedHypershell module: rooted_hypershell.lua";
               "  ✗ Class definition missing" ],
             Return false)).
Proof.
  intros re_other fs. split; [|split; [|split]].
  - apply guarded_validators_return.
  - intros e Hex Hread. rewrite validate_hypershell_eq, Hex.
    destruct (name_lines_unreadable re_other fs "hypershell.lua" e
                "  ✓ Function: " "  ✗ Function missing: "
                hypershell_functions Hread) as [-> ->].
    reflexivity.
  - intros e Hex Hread. rewrite validate_tests_eq, Hex.
    destruct (name_lines_unreadable re_other fs
                "test/test_rooted_hypershell.lua" e
                "  ✓ Test: " "  ✗ Test missing: " test_names Hread)
      as [-> ->].
    reflexivity.
  - intros e Hex Hread. rewrite validate_rooted_hypershell_eq, Hex.
    now rewrite (class_found_unreadable _ _ _ _ Hread).
Qed.

Lemma guarded_validators_never_raise_witness :
  snd (validate_hypershell re_rejects
         (complete_tree_with "hypershell.lua" Directory)) = Return false
  /\ snd (validate_tests re_rejects
            (complete_tree_with "test/test_rooted_hypershell.lua"
               (RegularFile NoPermission))) = Return false
  /\ snd (validate_rooted_hypershell re_rejects
            (complete_tree_with "rooted_hypershell.lua"
               (RegularFile Undecodable))) = Return false.
Proof.
  split; [|split].
  - rewrite (proj1 (proj2 (guarded_validators_never_raise re_rejects
                             (complete_tree_with "hypershell.lua"
                                Directory)))
               IsADirectoryError eq_refl eq_refl).
    reflexivity.
  - rewrite (proj1 (proj2 (proj2 (guarded_validators_never_raise re_rejects
                             (complete_tree_with
                                "test/test_rooted_hypershell.lua"
                                (RegularFile NoPermission)))))
               PermissionError eq_refl eq_refl).
    reflexivity.
  - rewrite (proj2 (proj2 (proj2 (guarded_validators_never_raise re_rejects
                             (complete_tree_with "rooted_hypershell.lua"
                                (RegularFile Undecodable)))))
               UnicodeDecodeError eq_refl eq_refl).
    reflexivity.
Defined.

(** ** The whole report *)

Lemma report_eq (results : list (string * bool)) :
  report results
  = (((nl ++ str_mul "=" 60)%string
      :: "Validation Summary"
      :: str_mul "=" 60
      :: map summary_line results
      ++ str_mul "=" 60 :: closing_block (forallb snd results))%list,
     Return (if forallb snd results then 0 else 1)%Z).
Proof.
  unfold report, bind, print, ret. cbv beta iota.
  rewrite for_each_lines with (test := snd) (line := summary_line).
  - cbv beta iota. rewrite andb_true_l. unfold closing_block.
    destruct (forallb snd results); reflexivity.
  - intros [component passed] acc. unfold summary_line.
    destruct passed; cbn [fst snd negb app].
    + now rewrite andb_true_r.
    + now rewrite andb_false_r.
Qed.

(** The output of [main] when every validator returns. *)
Lemma main_eq re_other fs out1 out2 out3 out4 out5 out6 out7
  v1 v2 v3 v4 v5 v6 v7 :
  validate_rooted_tree re_other fs = (out1, Return v1) ->
  validate_hypershell re_other fs = (out2, Return v2) ->
  validate_rooted_hypershell re_other fs = (out3, Return v3) ->
  validate_tests re_other fs = (out4, Return v4) ->
  validate_examples fs = (out5, Return v5) ->
  validate_documentation fs = (out6, Return v6) ->
  validate_integration fs = (out7, Return v7) ->
  let results :=
    [ ("RootedTree", v1); ("Hypershell", v2); ("RootedHypershell", v3);
      ("Tests", v4); ("Examples", v5); ("Documentation", v6);
      ("Integration", v7) ] in
  main re_other fs
  = ((banner ++ out1 ++ out2 ++ out3 ++ out4 ++ out5 ++ out6 ++ out7
      ++ fst (report results))%list,
     Return (if forallb snd results then 0 else 1)%Z).
Proof.
  intros H1 H2 H3 H4 H5 H6 H7 results.
  unfold main, bind, print, banner. cbv beta iota.
  rewrite H1. cbv beta iota. rewrite H2. cbv beta iota.
  rewrite H3. cbv beta iota. rewrite H4. cbv beta iota.
  rewrite H5. cbv beta iota. rewrite H6. cbv beta iota.
  rewrite H7. cbv beta iota. fold results. rewrite report_eq.
  reflexivity.
Qed.

(** X6: when no validator raises, [main] prints the banner, then the
    output of each of the seven validators, once each and in the fixed
    order whatever the verdicts, then the summary table with one row per
    component in the same order, and the closing block. *)
Theorem main_runs_every_validator :
  forall re_other (fs : filesystem)
         (out1 out2 out3 out4 out5 out6 out7 : list string)
         (v1 v2 v3 v4 v5 v6 v7 : bool),
    validate_rooted_tree re_other fs = (out1, Return v1) ->
    validate_hypershell re_other fs = (out2, Return v2) ->
    validate_rooted_hypershell re_other fs = (out3, Return v3) ->
    validate_tests re_other fs = (out4, Return v4) ->
    validate_examples fs = (out5, Return v5) ->
    validate_documentation fs = (out6, Return v6) ->
    validate_integration fs = (out7, Return v7) ->
    let results :=
      [ ("RootedTree", v1); ("Hypershell", v2); ("RootedHypershell", v3);
        ("Tests", v4); ("Examples", v5); ("Documentation", v6);
        ("Integration", v7) ] in
    main re_other fs
    = ((banner ++ out1 ++ out2 ++ out3 ++ out4 ++ out5 ++ out6 ++ out7
        ++ fst (report results))%list,
       Return (if forallb snd results then 0 else 1)%Z)
    /\ fst (report results)
       = ((nl ++ str_mul "=" 60)%string
          :: "Validation Summary"
          :: str_mul "=" 60
          :: map summary_line results
          ++ str_mul "=" 60 :: closing_block (forallb snd results))%list.
Proof.
  intros re_other fs out1 out2 out3 out4 out5 out6 out7
    v1 v2 v3 v4 v5 v6 v7 H1 H2 H3 H4 H5 H6 H7 results.
  split; [now apply main_eq | now rewrite report_eq].
Qed.

Lemma main_runs_every_validator_witness :
  let fs := complete_tree in
  main re_rejects fs
  = ((banner
      ++ fst (validate_rooted_tree re_rejects fs)
      ++ fst (validate_hypershell re_rejects fs)
      ++ fst (validate_rooted_hypershell re_rejects fs)
      ++ fst (validate_tests re_rejects fs)
      ++ fst (validate_examples fs)
      ++ fst (validate_documentation fs)
      ++ fst (validate_integration fs)
      ++ fst (report [ ("RootedTree", true); ("Hypershell", true);
                       ("RootedHypershell", true); ("Tests", true);
                       ("Examples", true); ("Documentation", true);
                       ("Integration", true) ]))%list,
     Return 0%Z).
Proof.
  intros fs.
  assert (H1 : validate_rooted_tree re_rejects fs
               = (fst (validate_rooted_tree re_rejects fs), Return true))
    by (vm_compute; reflexivity).
  assert (H2 : validate_hypershell re_rejects fs
               = (fst (validate_hypershell re_rejects fs), Return true))
    by (vm_compute; reflexivity).
  assert (H3 : validate_rooted_hypershell re_rejects fs
               = (fst (validate_rooted_hypershell re_rejects fs),
                  Return true))
    by (vm_compute; reflexivity).
  assert (H4 : validate_tests re_rejects fs
               = (fst (validate_tests re_rejects fs), Return true))
    by (vm_compute; reflexivity).
  assert (H5 : validate_examples fs
               = (fst (validate_examples fs), Return true))
    by (vm_compute; reflexivity).
  assert (H6 : validate_documentation fs
               = (fst (validate_documentation fs), Return true))
    by (vm_compute; reflexivity).
  assert (H7 : validate_integration fs
               = (fst (validate_integration fs), Return true))
    by (vm_compute; reflexivity).
  exact (proj1 (main_runs_every_validator re_rejects fs _ _ _ _ _ _ _
                  _ _ _ _ _ _ _ H1 H2 H3 H4 H5 H6 H7)).
Defined.

(** ** Which trees make [main] raise *)

(** How a read that follows a successful existence check can end. *)
Lemma direct_read_cases fs path :
  (absent_or_readable fs path = true
   /\ (path_exists fs path = false
       \/ exists content, read_text fs path = Return content))
  \/ (absent_or_readable fs path = false
      /\ path_exists fs path = true
      /\ exists e,
           read_text fs path = Raise e
           /\ e <> FileNotFoundError /\ e <> ReError).
Proof.
  unfold absent_or_readable, path_exists, read_text.
  destruct (fs path) as [[|[content| |]]|].
  - right. repeat split. eexists. repeat split; discriminate.
  - left. split; [reflexivity|]. right. now exists content.
  - right. repeat split. eexists. repeat split; discriminate.
  - right. repeat split. eexists. repeat split; discriminate.
  - left. split; [reflexivity|]. now left.
Qed.

(** The outcome of a validator that reads one file itself. *)
Lemma direct_validator_outcome (v : M bool) fs path :
  (path_exists fs path = false -> exists b, snd v = Return b) ->
  (forall content, read_text fs path = Return content ->
                   exists b, snd v = Return b) ->
  (forall e, path_exists fs path = true -> read_text fs path = Raise e ->
             snd v = Raise e) ->
  (absent_or_readable fs path = true /\ exists b, snd v = Return b)
  \/ (absent_or_readable fs path = false
      /\ exists e,
           snd v = Raise e /\ path_exists fs path = true
           /\ read_text fs path = Raise e
           /\ e <> FileNotFoundError /\ e <> ReError).
Proof.
  intros Habsent Hread Hraise.
  destruct (direct_read_cases fs path)
    as [[Hok [Hno|[content Hc]]]|(Hbad & Hex & e & He & Hne)].
  - left. split; [exact Hok | now apply Habsent].
  - left. split; [exact Hok | now apply (Hread content)].
  - right. split; [exact Hbad|]. exists e. repeat split; try tauto.
    now apply Hraise.
Qed.

Lemma rooted_tree_outcome re_other fs :
  let path := "rooted_tree.lua" in
  (absent_or_readable fs path = true
   /\ exists b, snd (validate_rooted_tree re_other fs) = Return b)
  \/ (absent_or_readable fs path = false
      /\ exists e,
           snd (validate_rooted_tree re_other fs) = Raise e
           /\ path_exists fs path = true /\ read_text fs path = Raise e
           /\ e <> FileNotFoundError /\ e <> ReError).
Proof.
  apply direct_validator_outcome; rewrite validate_rooted_tree_eq.
  - intros ->. now exists false.
  - intros content H. rewrite (read_text_exists _ _ _ H), H. cbv zeta.
    destruct (contains "A000081" content || contains "a000081" content);
      eexists; reflexivity.
  - intros e Hex H. now rewrite Hex, H.
Qed.

Lemma examples_outcome fs :
  let path := "examples/rooted_hypershell_example.lua" in
  (absent_or_readable fs path = true
   /\ exists b, snd (validate_examples fs) = Return b)
  \/ (absent_or_readable fs path = false
      /\ exists e,
           snd (validate_examples fs) = Raise e
           /\ path_exists fs path = true /\ read_text fs path = Raise e
           /\ e <> FileNotFoundError /\ e <> ReError).
Proof.
  apply direct_validator_outcome; rewrite validate_examples_eq.
  - intros ->. now exists false.
  - intros content H. rewrite (read_text_exists _ _ _ H), H.
    eexists; reflexivity.
  - intros e Hex H. now rewrite Hex, H.
Qed.

Lemma integration_outcome fs :
  let path := "init.lua" in
  (absent_or_readable fs path = true
   /\ exists b, snd (validate_integration fs) = Return b)
  \/ (absent_or_readable fs path = false
      /\ exists e,
           snd (validate_integration fs) = Raise e
           /\ path_exists fs path = true /\ read_text fs path = Raise e
           /\ e <> FileNotFoundError /\ e <> ReError).
Proof.
  apply direct_validator_outcome; rewrite validate_integration_eq.
  - intros ->. now exists false.
  - intros content H. rewrite (read_text_exists _ _ _ H), H.
    eexists; reflexivity.
  - intros e Hex H. now rewrite Hex, H.
Qed.

Lemma readme_part_outcome fs printed all_present :
  let path := "README.md" in
  (absent_or_readable fs path = true
   /\ exists b, snd (readme_part fs printed all_present) = Return b)
  \/ (absent_or_readable fs path = false
      /\ exists e,
           snd (readme_part fs printed all_present) = Raise e
           /\ path_exists fs path = true /\ read_text fs path = Raise e
           /\ e <> FileNotFoundError /\ e <> ReError).
Proof.
  apply direct_validator_outcome; unfold readme_part.
  - intros ->. now exists false.
  - intros content H. rewrite (read_text_exists _ _ _ H), H.
    destruct (readme_mentions content); eexists; reflexivity.
  - intros e Hex H. now rewrite Hex, H.
Qed.

Lemma documentation_outcome fs :
  (absent_or_readable fs "doc/ROOTED_HYPERSHELL.md" = true
   /\ absent_or_readable fs "README.md" = true
   /\ exists b, snd (validate_documentation fs) = Return b)
  \/ ((absent_or_readable fs "doc/ROOTED_HYPERSHELL.md" = false
       \/ absent_or_readable fs "README.md" = false)
      /\ exists e path,
           snd (validate_documentation fs) = Raise e
           /\ (path = "doc/ROOTED_HYPERSHELL.md" \/ path = "README.md")
           /\ path_exists fs path = true /\ read_text fs path = Raise e
           /\ e <> FileNotFoundError /\ e <> ReError).
Proof.
  rewrite validate_documentation_eq.
  destruct (direct_read_cases fs "doc/ROOTED_HYPERSHELL.md")
    as [[Hok [Hno|[content Hc]]]|(Hbad & Hex & e & He & Hne)].
  - rewrite Hno.
    destruct (readme_part_outcome fs
                [ nl ++ "=== Validating Documentation ===";
                  "✗ Architecture documentation NOT FOUND: doc/ROOTED_HYPERSHELL.md" ]
                false) as [[Hr Hb]|(Hr & e & He)].
    + left. auto.
    + right. split; [now right|]. exists e, "README.md". tauto.
  - rewrite (read_text_exists _ _ _ Hc), Hc.
    destruct (readme_part_outcome fs
                ((nl ++ "=== Validating Documentation ===")
                 :: "✓ Architecture documentation: doc/ROOTED_HYPERSHELL.md"
                 :: doc_lines content)
                true) as [[Hr Hb]|(Hr & e & He)].
    + left. auto.
    + right. split; [now right|]. exists e, "README.md". tauto.
  - right. split; [now left|]. exists e, "doc/ROOTED_HYPERSHELL.md".
    rewrite Hex, He. tauto.
Qed.

Lemma returned_pair {A} (m : M A) (a : A) :
  snd m = Return a -> m = (fst m, Return a).
Proof. destruct m as [out r]. simpl. now intros ->. Qed.

(** Closes a case in which [main] is known to raise: [Hmain] tells the
    exception, [Hall] unfolds the test on the five paths, and one of them
    is known not to pass it. *)
Ltac main_raises Hmain Hall e path :=
  split;
  [ intros Hf; rewrite Hall in Hf;
    repeat match goal with
           | H : absent_or_readable _ _ = _ |- _ => rewrite H in Hf
           end;
    rewrite ?andb_false_r in Hf; discriminate Hf
  | split;
    [ intros _; exists e; exact Hmain
    | let e' := fresh "e" in
      let He' := fresh "He" in
      intros e' He'; rewrite Hmain in He'; injection He' as <-;
      exists path; cbn [direct_reads In]; tauto ] ].

(** X5: [main] returns, with the summary printed and the value 0 or 1,
    exactly when each of the five files a validator opens itself is
    either missing or readable text; otherwise it raises, and the
    exception is the read error of one of these five files, which exists:
    neither [FileNotFoundError] nor [re.error] ever leaves [main]. *)
Theorem main_raises_only_on_unreadable :
  forall re_other (fs : filesystem),
    (forallb (absent_or_readable fs) direct_reads = true ->
     (exists code,
         snd (main re_other fs) = Return code
         /\ (code = 0 \/ code = 1)%Z)
     /\ In "Validation Summary" (fst (main re_other fs)))
    /\ (forallb (absent_or_readable fs) direct_reads = false ->
        exists e, snd (main re_other fs) = Raise e)
    /\ (forall e,
          snd (main re_other fs) = Raise e ->
          exists path,
            In path direct_reads
            /\ path_exists fs path = true
            /\ read_text fs path = Raise e
            /\ e <> FileNotFoundError /\ e <> ReError).
Proof.
  intros re_other fs.
  destruct (guarded_validators_return re_other fs)
    as ([b2 R2] & [b4 R4] & [b3 R3]).
  assert (Hall :
    forallb (absent_or_readable fs) direct_reads
    = absent_or_readable fs "rooted_tree.lua"
      && (absent_or_readable fs "examples/rooted_hypershell_example.lua"
          && (absent_or_readable fs "doc/ROOTED_HYPERSHELL.md"
              && (absent_or_readable fs "README.md"
                  && (absent_or_readable fs "init.lua" && true)))))
    by reflexivity.
  pose proof (main_code re_other fs) as Hmain.
  rewrite R2, R3, R4 in Hmain.
  destruct (rooted_tree_outcome re_other fs)
    as [[A1 [b1 R1]]|(A1 & e & R1 & X)];
    rewrite R1 in Hmain; cbv beta iota in Hmain;
    [|main_raises Hmain Hall e "rooted_tree.lua"].
  destruct (examples_outcome fs) as [[A5 [b5 R5]]|(A5 & e & R5 & X)];
    rewrite R5 in Hmain; cbv beta iota in Hmain;
    [|main_raises Hmain Hall e "examples/rooted_hypershell_example.lua"].
  destruct (documentation_outcome fs)
    as [(A6 & A6' & [b6 R6])|(A6 & e & path & R6 & Hpath & X)];
    rewrite R6 in Hmain; cbv beta iota in Hmain.
  2:{ destruct A6 as [A6|A6], Hpath as [->| ->];
        main_raises Hmain Hall e "doc/ROOTED_HYPERSHELL.md"
        || main_raises Hmain Hall e "README.md". }
  destruct (integration_outcome fs) as [[A7 [b7 R7]]|(A7 & e & R7 & X)];
    rewrite R7 in Hmain; cbv beta iota in Hmain;
    [|main_raises Hmain Hall e "init.lua"].
  split; [|split].
  - intros _. split.
    + eexists. split; [exact Hmain|].
      destruct (b1 && b2 && b3 && b4 && b5 && b6 && b7); auto.
    + rewrite (main_eq re_other fs _ _ _ _ _ _ _ _ _ _ _ _ _ _
                 (returned_pair _ _ R1) (returned_pair _ _ R2)
                 (returned_pair _ _ R3) (returned_pair _ _ R4)
                 (returned_pair _ _ R5) (returned_pair _ _ R6)
                 (returned_pair _ _ R7)).
      rewrite report_eq. cbn [fst].
      repeat (apply in_or_app; right). right. left. reflexivity.
  - intros Hf. rewrite Hall, A1, A5, A6, A6', A7 in Hf. discriminate Hf.
  - intros e He. rewrite Hmain in He. discriminate He.
Qed.

Lemma main_raises_only_on_unreadable_witness :
  ((exists code,
       snd (main re_rejects complete_tree) = Return code
       /\ (code = 0 \/ code = 1)%Z)
   /\ In "Validation Summary" (fst (main re_rejects complete_tree)))
  /\ (exists e,
        snd (main re_rejects
               (complete_tree_with "README.md" Directory)) = Raise e)
  /\ (exists path,
        In path direct_reads
        /\ path_exists (complete_tree_with "README.md" Directory) path
           = true
        /\ read_text (complete_tree_with "README.md" Directory) path
           = Raise IsADirectoryError
        /\ IsADirectoryError <> FileNotFoundError
        /\ IsADirectoryError <> ReError).
Proof.
  split; [|split].
  - apply (proj1 (main_raises_only_on_unreadable re_rejects complete_tree)).
    reflexivity.
  - apply (proj1 (proj2 (main_raises_only_on_unreadable re_rejects
                           (complete_tree_with "README.md" Directory)))).
    reflexivity.
  - apply (proj2 (proj2 (main_raises_only_on_unreadable re_rejects
                           (complete_tree_with "README.md" Directory)))).
    vm_compute. reflexivity.
Defined.

(** ** The failure mark and the verdict *)

(** Replaces [has_cross] of a closed line by its value. *)
Ltac eval_cross :=
  repeat match goal with
         | |- context [has_cross ?s] =>
             let v := eval vm_compute in (has_cross s) in
             lazymatch v with
             | true => change (has_cross s) with true
             | false => change (has_cross s) with false
             end
         end.

Lemma name_lines_cross (f : string -> bool) (found_label missing_label : string)
  (names : list string) :
  forallb (fun n => negb (has_cross (found_label ++ n))
                    && has_cross (missing_label ++ n)) names = true ->
  existsb has_cross
    (map (fun n => name_line found_label missing_label (f n) n) names)
  = negb (forallb f names).
Proof.
  induction names as [|n names IH]; intros H; [reflexivity|].
  cbn [forallb] in H. apply andb_true_iff in H as [Hn H].
  apply andb_true_iff in Hn as [Hok Hmiss].
  cbn [map existsb forallb]. rewrite (IH H). unfold name_line.
  destruct (f n).
  - apply negb_true_iff in Hok. now rewrite Hok.
  - now rewrite Hmiss.
Qed.

Lemma rooted_tree_cross re_other fs b :
  snd (validate_rooted_tree re_other fs) = Return b ->
  b = negb (existsb has_cross (fst (validate_rooted_tree re_other fs))).
Proof.
  rewrite validate_rooted_tree_eq.
  destruct (path_exists fs "rooted_tree.lua"); cbv zeta.
  - destruct (read_text fs "rooted_tree.lua") as [content|e];
      [|discriminate].
    destruct (contains "A000081" content || contains "a000081" content);
      cbn [fst snd]; rewrite existsb_app; cbn [existsb];
      rewrite name_lines_cross by reflexivity; eval_cross;
      generalize (forallb (function_found re_other fs "rooted_tree.lua")
                    rooted_tree_functions);
      intros all H; injection H as <-; now destruct all.
  - cbn [fst snd]. intros H; injection H as <-. reflexivity.
Qed.

Lemma hypershell_cross re_other fs b :
  snd (validate_hypershell re_other fs) = Return b ->
  b = negb (existsb has_cross (fst (validate_hypershell re_other fs))).
Proof.
  rewrite validate_hypershell_eq.
  destruct (path_exists fs "hypershell.lua"); cbn [fst snd];
    [|intros H; injection H as <-; reflexivity].
  cbn [existsb]. rewrite name_lines_cross by reflexivity. eval_cross.
  generalize (forallb (function_found re_other fs "hypershell.lua")
                hypershell_functions).
  intros all H; injection H as <-; now destruct all.
Qed.

Lemma rooted_hypershell_cross re_other fs b :
  snd (validate_rooted_hypershell re_other fs) = Return b ->
  b = negb (existsb has_cross
              (fst (validate_rooted_hypershell re_other fs))).
Proof.
  rewrite validate_rooted_hypershell_eq.
  destruct (path_exists fs "rooted_hypershell.lua");
    [destruct (class_found fs "rooted_hypershell.lua" "RootedHypershell")|];
    cbn [fst snd]; try (intros H; injection H as <-; reflexivity).
  cbn [existsb]. rewrite name_lines_cross by reflexivity. eval_cross.
  generalize (forallb (function_found re_other fs "rooted_hypershell.lua")
                rooted_hypershell_methods).
  intros all H; injection H as <-; now destruct all.
Qed.

Lemma tests_cross re_other fs b :
  snd (validate_tests re_other fs) = Return b ->
  b = negb (existsb has_cross (fst (validate_tests re_other fs))).
Proof.
  rewrite validate_tests_eq.
  destruct (path_exists fs "test/test_rooted_hypershell.lua");
    cbn [fst snd]; [|intros H; injection H as <-; reflexivity].
  cbn [existsb]. rewrite name_lines_cross by reflexivity. eval_cross.
  generalize (forallb (function_found re_other fs
                         "test/test_rooted_hypershell.lua") test_names).
  intros all H; injection H as <-; now destruct all.
Qed.

Lemma examples_cross fs b :
  snd (validate_examples fs) = Return b ->
  b = negb (existsb has_cross (fst (validate_examples fs))).
Proof.
  rewrite validate_examples_eq.
  destruct (path_exists fs "examples/rooted_hypershell_example.lua");
    [|cbn [fst snd]; intros H; injection H as <-; reflexivity].
  destruct (read_text fs "examples/rooted_hypershell_example.lua")
    as [content|e]; [|discriminate].
  cbn [fst snd]. unfold example_checks, example_line.
  cbn [map forallb fst snd].
  destruct (contains "RootedTree" content),
    (contains "Hypershell" content),
    (contains "RootedHypershell" content),
    (contains "A000081" content),
    (contains "spreadAttention" content);
    intros H; injection H as <-; reflexivity.
Qed.

Lemma integration_cross fs b :
  snd (validate_integration fs) = Return b ->
  b = negb (existsb has_cross (fst (validate_integration fs))).
Proof.
  rewrite validate_integration_eq.
  destruct (path_exists fs "init.lua");
    [|cbn [fst snd]; intros H; injection H as <-; reflexivity].
  destruct (read_text fs "init.lua") as [content|e]; [|discriminate].
  cbn [fst snd]. unfold integration_modules, module_line.
  cbn [map forallb].
  destruct (module_required content "rooted_tree"),
    (module_required content "hypershell"),
    (module_required content "rooted_hypershell");
    intros H; injection H as <-; reflexivity.
Qed.

Lemma readme_part_cross fs printed all_present b :
  all_present = negb (existsb has_cross printed) ->
  snd (readme_part fs printed all_present) = Return b ->
  b = negb (existsb has_cross (fst (readme_part fs printed all_present))).
Proof.
  intros Hp. unfold readme_part.
  destruct (path_exists fs "README.md").
  - destruct (read_text fs "README.md") as [content|e]; [|discriminate].
    destruct (readme_mentions content); cbn [fst snd];
      intros H; injection H as <-; rewrite existsb_app; cbn [existsb];
      eval_cross; rewrite ?orb_false_r, ?orb_true_r; auto.
  - cbn [fst snd]. intros H; injection H as <-.
    rewrite existsb_app. cbn [existsb]. eval_cross.
    now rewrite orb_true_r.
Qed.

Lemma documentation_cross fs b :
  snd (validate_documentation fs) = Return b ->
  b = negb (existsb has_cross (fst (validate_documentation fs))).
Proof.
  rewrite validate_documentation_eq.
  destruct (path_exists fs "doc/ROOTED_HYPERSHELL.md").
  - destruct (read_text fs "doc/ROOTED_HYPERSHELL.md") as [content|e];
      [|discriminate].
    apply readme_part_cross. unfold doc_lines.
    destruct (contains "A000081" content), (contains "Hypershell" content),
      (contains "RootedTree" content); reflexivity.
  - apply readme_part_cross. reflexivity.
Qed.

(** X7: a validator that returns has printed a line with the failure
    mark exactly when its verdict is false. *)
Theorem verdict_matches_failure_marks :
  forall re_other (fs : filesystem) (v : M bool) (b : bool),
    In v (validators re_other fs) ->
    snd v = Return b ->
    b = negb (existsb has_cross (fst v)).
Proof.
  intros re_other fs v b Hin.
  unfold validators in Hin. cbn [In] in Hin.
  destruct Hin as [<-|[<-|[<-|[<-|[<-|[<-|[<-|[]]]]]]]].
  - apply rooted_tree_cross.
  - apply hypershell_cross.
  - apply rooted_hypershell_cross.
  - apply tests_cross.
  - apply examples_cross.
  - apply documentation_cross.
  - apply integration_cross.
Qed.

Lemma verdict_matches_failure_marks_witness :
  false
  = negb (existsb has_cross
            (fst (validate_integration
                    (complete_tree_with "init.lua"
                       (RegularFile (Text "require('nngraph.hypershell')")))))).
Proof.
  apply (verdict_matches_failure_marks re_rejects
           (complete_tree_with "init.lua"
              (RegularFile (Text "require('nngraph.hypershell')")))).
  - do 6 right. left. reflexivity.
  - reflexivity.
Defined.

Lemma cross_of_verdict (b : bool) (out : list string) :
  b = negb (existsb has_cross out) -> existsb has_cross out = negb b.
Proof. intros ->. now rewrite negb_involutive. Qed.

(** X8: when [main] returns, its value is 0 exactly when no line of the
    whole output carries the failure mark. *)
Theorem exit_code_matches_failure_marks :
  forall re_other (fs : filesystem) (code : Z),
    snd (main re_other fs) = Return code ->
    (code = 0%Z <-> existsb has_cross (fst (main re_other fs)) = false).
Proof.
  intros re_other fs code Hcode.
  pose proof (main_code re_other fs) as Hmain. rewrite Hcode in Hmain.
  destruct (snd (validate_rooted_tree re_other fs)) as [b1|e] eqn:R1;
    cbv beta iota in Hmain; [|discriminate Hmain].
  destruct (snd (validate_hypershell re_other fs)) as [b2|e] eqn:R2;
    cbv beta iota in Hmain; [|discriminate Hmain].
  destruct (snd (validate_rooted_hypershell re_other fs)) as [b3|e] eqn:R3;
    cbv beta iota in Hmain; [|discriminate Hmain].
  destruct (snd (validate_tests re_other fs)) as [b4|e] eqn:R4;
    cbv beta iota in Hmain; [|discriminate Hmain].
  destruct (snd (validate_examples fs)) as [b5|e] eqn:R5;
    cbv beta iota in Hmain; [|discriminate Hmain].
  destruct (snd (validate_documentation fs)) as [b6|e] eqn:R6;
    cbv beta iota in Hmain; [|discriminate Hmain].
  destruct (snd (validate_integration fs)) as [b7|e] eqn:R7;
    cbv beta iota in Hmain; [|discriminate Hmain].
  injection Hmain as ->.
  rewrite (main_eq re_other fs _ _ _ _ _ _ _ _ _ _ _ _ _ _
             (returned_pair _ _ R1) (returned_pair _ _ R2)
             (returned_pair _ _ R3) (returned_pair _ _ R4)
             (returned_pair _ _ R5) (returned_pair _ _ R6)
             (returned_pair _ _ R7)).
  rewrite report_eq. cbn [fst]. rewrite !existsb_app.
  rewrite (cross_of_verdict _ _ (rooted_tree_cross _ _ _ R1)),
    (cross_of_verdict _ _ (hypershell_cross _ _ _ R2)),
    (cross_of_verdict _ _ (rooted_hypershell_cross _ _ _ R3)),
    (cross_of_verdict _ _ (tests_cross _ _ _ R4)),
    (cross_of_verdict _ _ (examples_cross _ _ R5)),
    (cross_of_verdict _ _ (documentation_cross _ _ R6)),
    (cross_of_verdict _ _ (integration_cross _ _ R7)).
  destruct b1, b2, b3, b4, b5, b6, b7; vm_compute;
    split; intros H; first [reflexivity | discriminate H].
Qed.

Lemma exit_code_matches_failure_marks_witness :
  existsb has_cross (fst (main re_rejects complete_tree)) = false.
Proof.
  apply (exit_code_matches_failure_marks re_rejects complete_tree 0%Z).
  - vm_compute. reflexivity.
  - reflexivity.
Defined.

(** ** Adding text never hurts *)

Lemma contains_extended (needle content before after : string) :
  contains needle content = true ->
  contains needle (before ++ content ++ after) = true.
Proof.
  intros H. apply (contains_trans _ content); [exact H|].
  apply contains_spec. now exists before, after.
Qed.

Lemma defines_function_extended (name content before after : string) :
  defines_function name content ->
  defines_function name (before ++ content ++ after).
Proof.
  intros [(b & bt & a & -> & Hbt)|H].
  - left. exists (before ++ b), bt, (a ++ after).
    split; [same_text | exact Hbt].
  - right. now apply contains_extended.
Qed.

(** X9: both content checks are monotone in the text: if a file passes
    the class check, or the function check for a plain name, it still
    passes after any text is added in front of it and behind it. *)
Theorem checks_survive_added_text :
  forall re_other (fs fs' : filesystem)
         (filepath name content before after : string),
    read_text fs filepath = Return content ->
    read_text fs' filepath = Return (before ++ content ++ after) ->
    (snd (check_class_exists fs filepath name) = Return true ->
     snd (check_class_exists fs' filepath name) = Return true)
    /\ (is_plain name = true ->
        snd (check_function_exists re_other fs filepath name)
          = Return true ->
        snd (check_function_exists re_other fs' filepath name)
          = Return true).
Proof.
  intros re_other fs fs' filepath name content before after Hread Hread'.
  split.
  - rewrite !check_class_exists_eq, Hread, Hread'. cbn [snd].
    intros H. f_equal.
    assert (H' :
      contains ("local " ++ name) content
      || contains (name ++ " = {}") content
      || contains ("torch.class('" ++ name ++ "'") content
      || contains ("torch.class(" ++ dq ++ "nn." ++ name ++ dq) content
      = true) by congruence.
    rewrite !orb_true_iff in H'. rewrite !orb_true_iff.
    destruct H' as [[[H'|H']|H']|H'];
      apply (contains_extended _ _ before after) in H'; tauto.
  - intros P. rewrite !function_found_eq. cbn [snd]. intros H.
    f_equal.
    apply (plain_name_found re_other fs' filepath name _ P Hread').
    apply defines_function_extended.
    apply (plain_name_found re_other fs filepath name _ P Hread).
    congruence.
Qed.

Lemma checks_survive_added_text_witness :
  let content := "local function addChild(node) end" in
  let longer := "-- tree" ++ nl ++ content ++ nl ++ "return RootedTree" in
  snd (check_function_exists re_rejects
         (tree_of [ text_file "rooted_tree.lua" longer ])
         "rooted_tree.lua" "addChild")
  = Return true.
Proof.
  intros content longer.
  apply (proj2 (checks_survive_added_text re_rejects
                  (tree_of [ text_file "rooted_tree.lua" content ])
                  (tree_of [ text_file "rooted_tree.lua" longer ])
                  "rooted_tree.lua" "addChild" content
                  ("-- tree" ++ nl) (nl ++ "return RootedTree")
                  eq_refl eq_refl));
    reflexivity.
Defined.

(** ** What two validators accept *)

Lemma names_found_iff re_other fs filepath names :
  forallb is_plain names = true ->
  names <> [] ->
  (forallb (function_found re_other fs filepath) names = true
   <-> exists content,
         read_text fs filepath = Return content
         /\ forall n, In n names -> defines_function n content).
Proof.
  intros Hplain Hne. rewrite forallb_forall in Hplain.
  rewrite forallb_forall. split.
  - intros H. destruct (read_text fs filepath) as [content|e] eqn:Hread.
    + exists content. split; [reflexivity|]. intros n Hn.
      apply (plain_name_found re_other fs filepath n content
               (Hplain n Hn) Hread).
      now apply H.
    + destruct names as [|n names]; [now elim Hne|].
      specialize (H n (or_introl eq_refl)).
      now rewrite (function_found_unreadable _ _ _ _ _ Hread) in H.
  - intros (content & Hread & H) n Hn.
    apply (plain_name_found re_other fs filepath n content
             (Hplain n Hn) Hread).
    now apply H.
Qed.

(** X10: [validate_tests] returns true exactly when the test file can be
    read and each of the five test names has the shape
    [defines_function] in its text. *)
Theorem tests_verdict :
  forall re_other (fs : filesystem),
    snd (validate_tests re_other fs) = Return true
    <-> exists content,
          read_text fs "test/test_rooted_hypershell.lua" = Return content
          /\ forall n, In n test_names -> defines_function n content.
Proof.
  intros re_other fs. rewrite validate_tests_eq.
  rewrite <- (names_found_iff re_other fs "test/test_rooted_hypershell.lua"
                test_names eq_refl) by discriminate.
  destruct (path_exists fs "test/test_rooted_hypershell.lua") eqn:Hex;
    cbn [snd].
  - split; congruence.
  - split; [discriminate|]. intros H. exfalso.
    apply (names_found_iff re_other fs "test/test_rooted_hypershell.lua"
             test_names eq_refl) in H as (content & Hread & _);
      [|discriminate].
    apply read_text_exists in Hread. congruence.
Qed.

Lemma tests_verdict_witness :
  exists content,
    read_text complete_tree "test/test_rooted_hypershell.lua"
      = Return content
    /\ forall n, In n test_names -> defines_function n content.
Proof.
  apply (tests_verdict re_rejects complete_tree).
  vm_compute. reflexivity.
Defined.

(** X11: [validate_rooted_hypershell] returns true exactly when the file
    can be read, its text holds one of the four class forms for
    [RootedHypershell], and each of the six method names has the shape
    [defines_function] in it. *)
Theorem rooted_hypershell_verdict :
  forall re_other (fs : filesystem),
    snd (validate_rooted_hypershell re_other fs) = Return true
    <-> exists content,
          read_text fs "rooted_hypershell.lua" = Return content
          /\ (contains "local RootedHypershell" content = true
              \/ contains "RootedHypershell = {}" content = true
              \/ contains "torch.class('RootedHypershell'" content = true
              \/ contains ("torch.class(" ++ dq ++ "nn.RootedHypershell"
                             ++ dq) content = true)
          /\ forall n, In n rooted_hypershell_methods ->
                       defines_function n content.
Proof.
  intros re_other fs. rewrite validate_rooted_hypershell_eq.
  pose proof (names_found_iff re_other fs "rooted_hypershell.lua"
                rooted_hypershell_methods eq_refl) as Hnames.
  unfold class_found. rewrite check_class_exists_eq. cbn [snd].
  destruct (read_text fs "rooted_hypershell.lua") as [content|e] eqn:Hread.
  - rewrite (read_text_exists _ _ _ Hread).
    destruct (contains ("local " ++ "RootedHypershell") content
              || contains ("RootedHypershell" ++ " = {}") content
              || contains ("torch.class('" ++ "RootedHypershell" ++ "'")
                   content
              || contains ("torch.class(" ++ dq ++ "nn."
                             ++ "RootedHypershell" ++ dq) content)
      eqn:Hclass; cbn [snd].
    + split.
      * intros H. exists content. split; [reflexivity|].
        split.
        -- rewrite !orb_true_iff in Hclass. tauto.
        -- assert (Hall : forallb (function_found re_other fs
                                     "rooted_hypershell.lua")
                            rooted_hypershell_methods = true)
             by congruence.
           apply Hnames in Hall as (c & Hc & Hall); [|discriminate].
           injection Hc as <-. exact Hall.
      * intros (c & Hc & _ & Hall). f_equal.
        apply Hnames; [discriminate|]. now exists c.
    + split; [discriminate|]. intros (c & Hc & Hforms & _).
      injection Hc as <-. rewrite !orb_false_iff in Hclass.
      destruct Hclass as [[[H1 H2] H3] H4].
      destruct Hforms as [H|[H|[H|H]]];
        simpl in H, H1, H2, H3, H4; congruence.
  - destruct (path_exists fs "rooted_hypershell.lua"); cbn [snd];
      (split; [discriminate|]; intros (c & Hc & _); discriminate).
Qed.

Lemma rooted_hypershell_verdict_witness :
  exists content,
    read_text complete_tree "rooted_hypershell.lua" = Return content
    /\ (contains "local RootedHypershell" content = true
        \/ contains "RootedHypershell = {}" content = true
        \/ contains "torch.class('RootedHypershell'" content = true
        \/ contains ("torch.class(" ++ dq ++ "nn.RootedHypershell" ++ dq)
             content = true)
    /\ forall n, In n rooted_hypershell_methods ->
                 defines_function n content.
Proof.
  apply (rooted_hypershell_verdict re_rejects complete_tree).
  vm_compute. reflexivity.
Defined.

(** ** Names with a dot *)

Lemma parse_dot rest stack f rep :
  parse (String "." rest) stack f rep
  = parse rest stack (push_item Dot f) false.
Proof. reflexivity. Qed.

Lemma parse_dotted a b rest stack f rep :
  is_plain a = true -> is_plain b = true ->
  exists rep',
    parse (a ++ String "." (b ++ rest)) stack f rep
    = parse rest stack
        (mk_frame (branches f)
           (plain_items b ++ Dot :: plain_items a ++ items f))
        rep'.
Proof.
  intros Pa Pb. eexists.
  rewrite parse_plain_any by assumption.
  rewrite parse_dot, parse_plain_any by assumption.
  reflexivity.
Qed.

Lemma seq_of_dotted (a b : string) (its : list regex) :
  seq_of (plain_items b ++ Dot :: plain_items a ++ its)
  = fold_right Seq Eps
      (rev its ++ map Chr (list_ascii_of_string a)
       ++ Dot :: map Chr (list_ascii_of_string b)).
Proof.
  rewrite seq_of_rev, rev_app_distr. cbn [rev]. rewrite rev_app_distr.
  unfold plain_items. rewrite !rev_involutive.
  now rewrite <- !app_assoc.
Qed.

Lemma parse_end f rep : parse "" [] f rep = Compiled (close_frame f).
Proof. reflexivity. Qed.

Lemma compile_dotted_patterns (a b : string) :
  is_plain a = true -> is_plain b = true ->
  map re_compile (function_patterns (a ++ "." ++ b))
  = map Compiled (dotted_pattern_regexes a b).
Proof.
  intros Pa Pb.
  unfold function_patterns, dotted_pattern_regexes, re_compile.
  cbn [map]. repeat f_equal.
  - simpl.
    match goal with
    | |- parse _ ?st ?f ?r = _ =>
        destruct (parse_dotted a b "" st f r Pa Pb) as [rep' H]
    end.
    rewrite !append_nil_r in H. rewrite H, parse_end.
    unfold close_frame. cbn [branches items fold_left].
    now rewrite seq_of_dotted.
  - simpl.
    match goal with
    | |- parse _ ?st ?f ?r = _ =>
        destruct (parse_dotted a b "" st f r Pa Pb) as [rep' H]
    end.
    rewrite !append_nil_r in H. rewrite H, parse_end.
    unfold close_frame. cbn [branches items fold_left].
    now rewrite seq_of_dotted.
  - simpl.
    match goal with
    | |- parse _ ?st ?f ?r = _ =>
        destruct (parse_dotted a b "" st f r Pa Pb) as [rep' H]
    end.
    rewrite !append_nil_r in H. rewrite H, parse_end.
    unfold close_frame. cbn [branches items fold_left].
    now rewrite seq_of_dotted.
  - simpl.
    match goal with
    | |- parse _ ?st ?f ?r = _ =>
        destruct (parse_dotted a b "" st f r Pa Pb) as [rep' H]
    end.
    rewrite !append_nil_r in H. rewrite H, parse_end.
    unfold close_frame. cbn [branches items fold_left].
    now rewrite seq_of_dotted.
  - destruct (parse_dotted a b " = function" [] empty_frame false Pa Pb)
      as [rep' H].
    rewrite !append_assoc. simpl append. rewrite H. simpl.
    unfold close_frame, push_item. cbn [branches items fold_left].
    rewrite seq_of_rev. cbn [rev]. rewrite rev_app_distr. cbn [rev].
    rewrite rev_app_distr. unfold plain_items.
    rewrite !rev_involutive. cbn [rev app].
    rewrite <- !app_assoc. reflexivity.
  - simpl.
    match goal with
    | |- parse _ ?st ?f ?r = _ =>
        destruct (parse_dotted a b "" st f r Pa Pb) as [rep' H]
    end.
    rewrite !append_nil_r in H. rewrite H, parse_end.
    unfold close_frame. cbn [branches items fold_left].
    now rewrite seq_of_dotted.
Qed.

Lemma matches_dot_then (l : list regex) (m : string) :
  matches (fold_right Seq Eps (Dot :: l)) m
  <-> exists c m',
        m = String c m' /\ c <> "010"%char
        /\ matches (fold_right Seq Eps l) m'.
Proof.
  cbn [fold_right]. split.
  - inversion 1 as [| | |r1 r2 s1 s2 Hd Hr| | | |]; subst.
    inversion Hd as [| |c ne| | | | |]; subst. now exists c, s2.
  - intros (c & m' & -> & ne & H).
    change (String c m') with (String c "" ++ m').
    constructor; [now constructor | exact H].
Qed.

(** A dotted name in front of a sequence. *)
Lemma matches_dotted_then (a b : string) (l : list regex) (m : string) :
  matches
    (fold_right Seq Eps
       ((map Chr (list_ascii_of_string a)
         ++ Dot :: map Chr (list_ascii_of_string b)) ++ l)) m
  <-> exists c m',
        m = a ++ String c (b ++ m') /\ c <> "010"%char
        /\ matches (fold_right Seq Eps l) m'.
Proof.
  rewrite <- app_assoc. cbn [app]. rewrite matches_lit_then. split.
  - intros (m1 & -> & H).
    apply matches_dot_then in H as (c & m2 & -> & ne & H).
    apply matches_lit_then in H as (m3 & -> & H). now exists c, m3.
  - intros (c & m' & -> & ne & H). eexists. split; [reflexivity|].
    apply matches_dot_then. exists c, (b ++ m').
    split; [reflexivity | split; [exact ne|]].
    apply matches_lit_then. now exists m'.
Qed.

Lemma matches_dotted (a b m : string) :
  matches
    (fold_right Seq Eps
       (map Chr (list_ascii_of_string a)
        ++ Dot :: map Chr (list_ascii_of_string b))) m
  <-> exists c, m = a ++ String c b /\ c <> "010"%char.
Proof.
  rewrite <- (app_nil_r (_ ++ Dot :: _)), matches_dotted_then.
  cbn [fold_right]. split.
  - intros (c & m' & -> & ne & H). apply matches_eps in H as ->.
    exists c. now rewrite append_nil_r.
  - intros (c & -> & ne). exists c, "".
    rewrite append_nil_r. repeat split; [exact ne | constructor].
Qed.

Lemma dotted_pattern_found (a b content : string) :
  existsb (fun r => search r content) (dotted_pattern_regexes a b) = true
  <-> defines_dotted a b content.
Proof.
  unfold defines_dotted. rewrite existsb_exists. split.
  - intros (r & Hin & Hs).
    apply search_sound in Hs as (p & m & q & -> & Hm).
    unfold dotted_pattern_regexes in Hin. cbn [map In] in Hin.
    destruct Hin as [<-|[<-|[<-|[<-|[<-|[<-|[]]]]]]].
    + apply matches_lit_then in Hm as (m1 & -> & Hm).
      apply matches_dotted in Hm as (c & -> & ne).
      left. exists p, " ", c, q. repeat split; [same_text | exact ne].
    + apply matches_lit_then in Hm as (m1 & -> & Hm).
      apply matches_star_dot_then in Hm as (bt & m2 & -> & Hbt & Hm).
      apply matches_dotted in Hm as (c & -> & ne).
      left. exists p, bt, c, q. repeat split; [same_text|exact Hbt|exact ne].
    + apply matches_lit_then in Hm as (m1 & -> & Hm).
      apply matches_dotted in Hm as (c & -> & ne).
      left. exists (p ++ "local "), " ", c, q.
      repeat split; [same_text | exact ne].
    + apply matches_lit_then in Hm as (m1 & -> & Hm).
      apply matches_star_dot_then in Hm as (bt & m2 & -> & Hbt & Hm).
      cbn [fold_right] in Hm.
      apply matches_chr_then in Hm as (m3 & -> & Hm).
      apply matches_dotted in Hm as (c & -> & ne).
      left. exists p, (bt ++ ":"), c, q. repeat split.
      * same_text.
      * rewrite one_line_app, Hbt. reflexivity.
      * exact ne.
    + apply matches_dotted_then in Hm as (c & m1 & -> & ne & Hm).
      apply matches_lit in Hm as ->.
      right. exists p, c, q. split; [same_text | exact ne].
    + apply matches_lit_then in Hm as (m1 & -> & Hm).
      apply matches_star_dot_then in Hm as (bt & m2 & -> & Hbt & Hm).
      cbn [fold_right] in Hm.
      apply matches_chr_then in Hm as (m3 & -> & Hm).
      apply matches_dotted in Hm as (c & -> & ne).
      left. exists p, (bt ++ "."), c, q. repeat split.
      * same_text.
      * rewrite one_line_app, Hbt. reflexivity.
      * exact ne.
  - intros [(p & bt & c & q & -> & Hbt & ne)|(p & c & q & -> & ne)].
    + eexists. split.
      * unfold dotted_pattern_regexes. cbn [map In]. right. left.
        reflexivity.
      * replace (p ++ "function" ++ bt ++ a ++ String c b ++ q)
          with (p ++ ("function" ++ bt ++ a ++ String c b) ++ q)
          by same_text.
        apply search_complete. apply matches_lit_then.
        eexists. split; [reflexivity|].
        apply matches_star_dot_then. exists bt, (a ++ String c b).
        split; [reflexivity | split; [exact Hbt|]].
        apply matches_dotted. now exists c.
    + eexists. split.
      * unfold dotted_pattern_regexes. cbn [map In].
        right. right. right. right. left. reflexivity.
      * replace (p ++ a ++ String c b ++ " = function" ++ q)
          with (p ++ (a ++ String c (b ++ " = function")) ++ q)
          by same_text.
        apply search_complete. apply matches_dotted_then.
        exists c, " = function".
        split; [reflexivity | split; [exact ne | now apply matches_lit]].
Qed.

(** For a dotted name and a readable file, the answer of the function
    check is the shape [defines_dotted]. *)
Lemma dotted_name_found re_other fs filepath a b content :
  is_plain a = true -> is_plain b = true ->
  read_text fs filepath = Return content ->
  (function_found re_other fs filepath (a ++ "." ++ b) = true
   <-> defines_dotted a b content).
Proof.
  intros Pa Pb Hread. unfold function_found.
  rewrite check_function_exists_eq, Hread.
  rewrite (search_patterns_compiled _ _ _ _
             (compile_dotted_patterns _ _ Pa Pb)).
  cbn [snd]. apply dotted_pattern_found.
Qed.

(** X12: for a name made of two plain parts joined by a dot and a
    readable file, [check_function_exists] reads the dot as "any character
    but a line feed": it answers true exactly when the text holds the word
    [function] and, later on the same line, the first part, one such
    character and the second part, or holds these three followed by
    [ = function]. *)
Theorem check_function_exists_dotted_shape :
  forall re_other (fs : filesystem) (filepath object method content : string),
    is_plain object = true ->
    is_plain method = true ->
    read_text fs filepath = Return content ->
    (snd (check_function_exists re_other fs filepath
            (object ++ "." ++ method)) = Return true
     <-> defines_dotted object method content).
Proof.
  intros re_other fs filepath object method content Pa Pb Hread.
  rewrite function_found_eq. cbn [snd].
  rewrite <- (dotted_name_found re_other fs filepath object method content
                Pa Pb Hread).
  split; congruence.
Qed.

Lemma check_function_exists_dotted_shape_witness :
  defines_dotted "Hypershell" "new" "function Hypershell:new(config)".
Proof.
  apply (check_function_exists_dotted_shape re_rejects
           (tree_of [ text_file "hypershell.lua"
                        "function Hypershell:new(config)" ])
           "hypershell.lua" "Hypershell" "new"
           "function Hypershell:new(config)");
    reflexivity.
Defined.

(** ** What the two module validators accept *)

Lemma dotted_and_names_found re_other fs filepath a b names content :
  is_plain a = true -> is_plain b = true ->
  forallb is_plain names = true ->
  read_text fs filepath = Return content ->
  (forallb (function_found re_other fs filepath) ((a ++ "." ++ b) :: names)
   = true
   <-> defines_dotted a b content
       /\ forall n, In n names -> defines_function n content).
Proof.
  intros Pa Pb Pn Hread. cbn [forallb]. rewrite andb_true_iff.
  rewrite (dotted_name_found re_other fs filepath a b content Pa Pb Hread).
  rewrite forallb_forall in Pn. rewrite forallb_forall.
  split; intros [Hd Hn]; (split; [exact Hd|]); intros n Hin;
    apply (plain_name_found re_other fs filepath n content (Pn n Hin) Hread);
    now apply Hn.
Qed.

Lemma first_name_unreadable re_other fs filepath e name names :
  read_text fs filepath = Raise e ->
  forallb (function_found re_other fs filepath) (name :: names) = false.
Proof.
  intros H. cbn [forallb].
  now rewrite (function_found_unreadable _ _ _ _ _ H).
Qed.

(** X13: [validate_hypershell] returns true exactly when the file can be
    read, [Hypershell.new] has the shape [defines_dotted] in its text and
    each of the six other names has the shape [defines_function]. *)
Theorem hypershell_verdict :
  forall re_other (fs : filesystem),
    snd (validate_hypershell re_other fs) = Return true
    <-> exists content,
          read_text fs "hypershell.lua" = Return content
          /\ defines_dotted "Hypershell" "new" content
          /\ forall n,
               In n [ "buildShells"; "getShell"; "getNodeDepth";
                      "propagateOutward"; "propagateInward";
                      "spreadAttention" ] ->
               defines_function n content.
Proof.
  intros re_other fs. rewrite validate_hypershell_eq.
  change hypershell_functions
    with (("Hypershell" ++ "." ++ "new")
          :: [ "buildShells"; "getShell"; "getNodeDepth";
               "propagateOutward"; "propagateInward"; "spreadAttention" ]).
  destruct (read_text fs "hypershell.lua") as [content|e] eqn:Hread.
  - rewrite (read_text_exists _ _ _ Hread). cbn [snd]. split.
    + intros H. exists content. split; [reflexivity|].
      apply (dotted_and_names_found re_other fs "hypershell.lua"
               "Hypershell" "new"
               [ "buildShells"; "getShell"; "getNodeDepth"; "propagateOutward";
                 "propagateInward"; "spreadAttention" ]
               content eq_refl eq_refl eq_refl Hread).
      congruence.
    + intros (c & Hc & H). injection Hc as <-. f_equal.
      now apply (dotted_and_names_found re_other fs "hypershell.lua"
                   "Hypershell" "new"
               [ "buildShells"; "getShell"; "getNodeDepth"; "propagateOutward";
                 "propagateInward"; "spreadAttention" ]
               content eq_refl eq_refl eq_refl Hread).
  - rewrite (first_name_unreadable _ _ _ _ _ _ Hread).
    destruct (path_exists fs "hypershell.lua"); cbn [snd];
      (split; [discriminate|]; intros (c & Hc & _); discriminate).
Qed.

Lemma hypershell_verdict_witness :
  exists content,
    read_text complete_tree "hypershell.lua" = Return content
    /\ defines_dotted "Hypershell" "new" content
    /\ forall n,
         In n [ "buildShells"; "getShell"; "getNodeDepth";
                "propagateOutward"; "propagateInward"; "spreadAttention" ] ->
         defines_function n content.
Proof.
  apply (hypershell_verdict re_rejects complete_tree).
  vm_compute. reflexivity.
Defined.

(** The verdict of [validate_rooted_tree] on a readable file is the
    conjunction of the function checks. *)
Lemma rooted_tree_verdict_functions re_other fs content :
  read_text fs "rooted_tree.lua" = Return content ->
  snd (validate_rooted_tree re_other fs)
  = Return (forallb (function_found re_other fs "rooted_tree.lua")
              rooted_tree_functions).
Proof.
  intros Hread.
  rewrite validate_rooted_tree_eq, (read_text_exists _ _ _ Hread), Hread.
  cbv zeta.
  destruct (contains "A000081" content) eqn:Hmark; cbn [orb];
    [reflexivity|].
  assert (Hf :
    function_found re_other fs "rooted_tree.lua" "getA000081Sequence"
    = false).
  { destruct (function_found re_other fs "rooted_tree.lua"
                "getA000081Sequence") eqn:Hf; [|reflexivity].
    apply (function_found_contains re_other fs "rooted_tree.lua"
             "getA000081Sequence" content eq_refl Hread) in Hf.
    assert (contains "A000081" content = true)
      by (apply (contains_trans _ "getA000081Sequence");
          [reflexivity | exact Hf]).
    congruence. }
  assert (Hall :
    forallb (function_found re_other fs "rooted_tree.lua")
      rooted_tree_functions = false).
  { unfold rooted_tree_functions. cbn [forallb]. rewrite Hf.
    now rewrite !andb_false_r. }
  rewrite Hall. now destruct (contains "a000081" content).
Qed.

(** X14: [validate_rooted_tree] returns true exactly when the file can be
    read, [RootedTree.new] has the shape [defines_dotted] in its text and
    each of the seven other names has the shape [defines_function]; the
    marker check adds nothing. *)
Theorem rooted_tree_verdict :
  forall re_other (fs : filesystem),
    snd (validate_rooted_tree re_other fs) = Return true
    <-> exists content,
          read_text fs "rooted_tree.lua" = Return content
          /\ defines_dotted "RootedTree" "new" content
          /\ forall n,
               In n [ "addChild"; "getNodesAtDepth"; "traverseDFS";
                      "traverseBFS"; "getLeaves"; "countRootedTrees";
                      "getA000081Sequence" ] ->
               defines_function n content.
Proof.
  intros re_other fs.
  destruct (read_text fs "rooted_tree.lua") as [content|e] eqn:Hread.
  - rewrite (rooted_tree_verdict_functions re_other fs content Hread).
    change rooted_tree_functions
      with (("RootedTree" ++ "." ++ "new")
            :: [ "addChild"; "getNodesAtDepth"; "traverseDFS";
                 "traverseBFS"; "getLeaves"; "countRootedTrees";
                 "getA000081Sequence" ]).
    split.
    + intros H. exists content. split; [reflexivity|].
      apply (dotted_and_names_found re_other fs "rooted_tree.lua"
               "RootedTree" "new"
               [ "addChild"; "getNodesAtDepth"; "traverseDFS"; "traverseBFS";
                 "getLeaves"; "countRootedTrees"; "getA000081Sequence" ]
               content eq_refl eq_refl eq_refl Hread).
      congruence.
    + intros (c & Hc & H). injection Hc as <-. f_equal.
      now apply (dotted_and_names_found re_other fs "rooted_tree.lua"
                   "RootedTree" "new"
               [ "addChild"; "getNodesAtDepth"; "traverseDFS"; "traverseBFS";
                 "getLeaves"; "countRootedTrees"; "getA000081Sequence" ]
               content eq_refl eq_refl eq_refl Hread).
  - rewrite validate_rooted_tree_eq, Hread.
    destruct (path_exists fs "rooted_tree.lua"); cbn [snd];
      (split; [discriminate|]; intros (c & Hc & _); discriminate).
Qed.

Lemma rooted_tree_verdict_witness :
  exists content,
    read_text complete_tree "rooted_tree.lua" = Return content
    /\ defines_dotted "RootedTree" "new" content
    /\ forall n,
         In n [ "addChild"; "getNodesAtDepth"; "traverseDFS";
                "traverseBFS"; "getLeaves"; "countRootedTrees";
                "getA000081Sequence" ] ->
         defines_function n content.
Proof.
  apply (rooted_tree_verdict re_rejects complete_tree).
  vm_compute. reflexivity.
Defined.

(** ** Each validator looks at its own file only *)

Lemma same_entry fs fs' path :
  fs path = fs' path ->
  path_exists fs path = path_exists fs' path
  /\ read_text fs path = read_text fs' path.
Proof. unfold path_exists, read_text. now intros ->. Qed.

Lemma function_found_same_entry re_other fs fs' path name :
  fs path = fs' path ->
  function_found re_other fs path name
  = function_found re_other fs' path name.
Proof.
  intros H. destruct (same_entry _ _ _ H) as [_ Hr].
  unfold function_found. now rewrite !check_function_exists_eq, Hr.
Qed.

Lemma class_found_same_entry fs fs' path name :
  fs path = fs' path ->
  class_found fs path name = class_found fs' path name.
Proof.
  intros H. destruct (same_entry _ _ _ H) as [_ Hr].
  unfold class_found. now rewrite !check_class_exists_eq, Hr.
Qed.

Lemma name_loop_same_entry re_other fs fs' path found_label missing_label
  names :
  fs path = fs' path ->
  map (fun n => name_line found_label missing_label
                  (function_found re_other fs path n) n) names
  = map (fun n => name_line found_label missing_label
                    (function_found re_other fs' path n) n) names
  /\ forallb (function_found re_other fs path) names
     = forallb (function_found re_other fs' path) names.
Proof.
  intros H. split.
  - apply map_ext. intros n.
    now rewrite (function_found_same_entry re_other fs fs' path n H).
  - induction names as [|n names IH]; [reflexivity|]. cbn [forallb].
    now rewrite IH, (function_found_same_entry re_other fs fs' path n H).
Qed.

(** X15: each validator depends on the tree only through its own file
    (two files for Documentation): trees that agree there give the same
    printed lines and the same outcome. *)
Theorem validators_are_local :
  forall re_other (fs fs' : filesystem),
    (fs "rooted_tree.lua" = fs' "rooted_tree.lua" ->
     validate_rooted_tree re_other fs = validate_rooted_tree re_other fs')
    /\ (fs "hypershell.lua" = fs' "hypershell.lua" ->
        validate_hypershell re_other fs = validate_hypershell re_other fs')
    /\ (fs "rooted_hypershell.lua" = fs' "rooted_hypershell.lua" ->
        validate_rooted_hypershell re_other fs
        = validate_rooted_hypershell re_other fs')
    /\ (fs "test/test_rooted_hypershell.lua"
        = fs' "test/test_rooted_hypershell.lua" ->
        validate_tests re_other fs = validate_tests re_other fs')
    /\ (fs "examples/rooted_hypershell_example.lua"
        = fs' "examples/rooted_hypershell_example.lua" ->
        validate_examples fs = validate_examples fs')
    /\ (fs "doc/ROOTED_HYPERSHELL.md" = fs' "doc/ROOTED_HYPERSHELL.md" ->
        fs "README.md" = fs' "README.md" ->
        validate_documentation fs = validate_documentation fs')
    /\ (fs "init.lua" = fs' "init.lua" ->
        validate_integration fs = validate_integration fs').
Proof.
  intros re_other fs fs'.
  split; [|split; [|split; [|split; [|split; [|split]]]]].
  - intros H. destruct (same_entry _ _ _ H) as [He Hr].
    destruct (name_loop_same_entry re_other fs fs' "rooted_tree.lua"
                "  ✓ Function: " "  ✗ Function missing: "
                rooted_tree_functions H) as [Hm Hf].
    now rewrite !validate_rooted_tree_eq, He, Hr, Hm, Hf.
  - intros H. destruct (same_entry _ _ _ H) as [He Hr].
    destruct (name_loop_same_entry re_other fs fs' "hypershell.lua"
                "  ✓ Function: " "  ✗ Function missing: "
                hypershell_functions H) as [Hm Hf].
    now rewrite !validate_hypershell_eq, He, Hm, Hf.
  - intros H. destruct (same_entry _ _ _ H) as [He Hr].
    destruct (name_loop_same_entry re_other fs fs' "rooted_hypershell.lua"
                "  ✓ Method: " "  ✗ Method missing: "
                rooted_hypershell_methods H) as [Hm Hf].
    now rewrite !validate_rooted_hypershell_eq, He, Hm, Hf,
      (class_found_same_entry fs fs' _ "RootedHypershell" H).
  - intros H. destruct (same_entry _ _ _ H) as [He Hr].
    destruct (name_loop_same_entry re_other fs fs'
                "test/test_rooted_hypershell.lua"
                "  ✓ Test: " "  ✗ Test missing: " test_names H)
      as [Hm Hf].
    now rewrite !validate_tests_eq, He, Hm, Hf.
  - intros H. destruct (same_entry _ _ _ H) as [He Hr].
    now rewrite !validate_examples_eq, He, Hr.
  - intros H H'. destruct (same_entry _ _ _ H) as [He Hr].
    destruct (same_entry _ _ _ H') as [He' Hr'].
    rewrite !validate_documentation_eq, He, Hr. unfold readme_part.
    now rewrite He', Hr'.
  - intros H. destruct (same_entry _ _ _ H) as [He Hr].
    now rewrite !validate_integration_eq, He, Hr.
Qed.

Lemma validators_are_local_witness :
  let fs' := complete_tree_with "README.md" Directory in
  validate_rooted_tree re_rejects complete_tree
    = validate_rooted_tree re_rejects fs'
  /\ validate_hypershell re_rejects complete_tree
     = validate_hypershell re_rejects fs'
  /\ validate_rooted_hypershell re_rejects complete_tree
     = validate_rooted_hypershell re_rejects fs'
  /\ validate_tests re_rejects complete_tree
     = validate_tests re_rejects fs'
  /\ validate_examples complete_tree = validate_examples fs'
  /\ validate_documentation complete_tree
     = validate_documentation (complete_tree_with "init.lua" Directory)
  /\ validate_integration complete_tree = validate_integration fs'.
Proof.
  intros fs'.
  destruct (validators_are_local re_rejects complete_tree fs')
    as (H1 & H2 & H3 & H4 & H5 & _ & H7).
  destruct (validators_are_local re_rejects complete_tree
              (complete_tree_with "init.lua" Directory))
    as (_ & _ & _ & _ & _ & H6 & _).
  exact (conj (H1 eq_refl) (conj (H2 eq_refl) (conj (H3 eq_refl)
          (conj (H4 eq_refl) (conj (H5 eq_refl)
            (conj (H6 eq_refl eq_refl) (H7 eq_refl))))))).
Defined.
